(** * Amber: a shallow embedding of the lost-and-found backend

    The view functions of [app/Posts_Respo_Alert/{found,lost,looking,stolen}.py],
    [app/users/users.py] and [app/users/admins.py] are embedded as functions
    in a state-and-exception monad over an explicit world: the committed
    database, the files written by [image.save], the mail outbox, the
    mappers registered by [app/models.py], and the environment the views
    call into (what the ORM, the file system and the mail server answer
    where the source does not determine it).  A view is modelled from the
    point at which Flask calls it, with the identity [get_jwt_identity()]
    returns.  Library calls whose result the views only pass along
    (password hashing, JWT signing, file-name sanitising) are Section
    variables. *)

From Stdlib Require Import ZArith List String Ascii Bool Lia DecimalString.
Import ListNotations.

Local Open Scope string_scope.
Local Open Scope list_scope.
Local Open Scope Z_scope.

(** ** Python values *)

(** A [datetime] column as SQLite stores it: the calendar date and the time
    of day.  [func.date] keeps the first component. *)
Record datetime := mk_datetime { dt_date : string; dt_time : string }.

(** What [request.get_json()] returns and what [jsonify] accepts, numbers
    being integers.  A parsed body holds no [JDateTime]. *)
#[local] Unset Elimination Schemes.
Inductive json : Type :=
| JNull
| JBool (b : bool)
| JInt (n : Z)
| JStr (s : string)
| JDateTime (d : datetime)
| JList (l : list json)
| JDict (kv : list (string * json)).
#[local] Set Elimination Schemes.

(** [bool(v)] for a JSON value. *)
Definition truthy (v : json) : bool :=
  match v with
  | JNull => false
  | JBool b => b
  | JInt n => negb (n =? 0)
  | JStr s => negb (s =? "")%string
  | JDateTime _ => true
  | JList l => match l with [] => false | _ => true end
  | JDict kv => match kv with [] => false | _ => true end
  end.

(** [bool(s)] for a value that is [None] or a string. *)
Definition truthy_str (o : option string) : bool :=
  match o with
  | None => false
  | Some s => negb (s =? "")%string
  end.

Definition json_of_opt_str (o : option string) : json :=
  match o with None => JNull | Some s => JStr s end.

(** [type(v).__name__] *)
Definition py_type_name (v : json) : string :=
  match v with
  | JNull => "NoneType"
  | JBool _ => "bool"
  | JInt _ => "int"
  | JStr _ => "str"
  | JDateTime _ => "datetime.datetime"
  | JList _ => "list"
  | JDict _ => "dict"
  end.

(** Exceptions, by class, with the text [str(e)] gives. *)
Inductive exn_class :=
| AttributeError | NameError | KeyError | TypeError | OverflowError | OSError
| ArgumentError | InvalidRequestError | IntegrityError | InterfaceError | StatementError
| SMTPException
| ExpiredSignatureError | InvalidSignatureError | DecodeError.

Record exn := Exn { exn_cls : exn_class; exn_msg : string }.

Definition str_exn (e : exn) : string := exn_msg e.

(** [v.attr] where [v], a JSON value, has no such attribute. *)
Definition no_attribute (v : json) (attr : string) : exn :=
  Exn AttributeError
      ("'" ++ py_type_name v ++ "' object has no attribute '" ++ attr ++ "'")%string.

(** First binding of a key, as [dict.get] and [MultiDict.get] take it. *)
Fixpoint assoc {A : Type} (k : string) (l : list (string * A)) : option A :=
  match l with
  | [] => None
  | (k', v) :: l' => if (k' =? k)%string then Some v else assoc k l'
  end.

(** [request.form]: a MultiDict of strings. *)
Definition multidict := list (string * string).

Definition form_get (data : multidict) (k : string) : option string := assoc k data.

(** [data.get(k, default)] on a MultiDict. *)
Definition form_get_default (data : multidict) (k : string) (d : option string)
  : option string :=
  match assoc k data with
  | Some v => Some v
  | None => d
  end.

(** [data.get(k)] on a parsed JSON body: only a dict has [get]. *)
Definition json_get (data : json) (k : string) : exn + json :=
  match data with
  | JDict kv => inr (match assoc k kv with Some v => v | None => JNull end)
  | _ => inl (no_attribute data "get")
  end.

(** [data.get(k, default)] on a parsed JSON body. *)
Definition json_get_default (data : json) (k : string) (d : json) : exn + json :=
  match data with
  | JDict kv => inr (match assoc k kv with Some v => v | None => d end)
  | _ => inl (no_attribute data "get")
  end.

(** [data[k]] on a parsed JSON body, for a string [k]. *)
Definition json_getitem (data : json) (k : string) : exn + json :=
  match data with
  | JDict kv =>
      match assoc k kv with
      | Some v => inr v
      | None => inl (Exn KeyError ("'" ++ k ++ "'")%string)
      end
  | JList _ => inl (Exn TypeError "list indices must be integers or slices, not str")
  | JStr _ => inl (Exn TypeError "string indices must be integers, not 'str'")
  | _ => inl (Exn TypeError ("'" ++ py_type_name data ++ "' object is not subscriptable")%string)
  end.

(** ** The schema of [app/models.py] *)

Module User.
Record t := mk {
  id : Z;
  username : string;
  email : string;
  password_hash : string;
  is_admin : option bool;      (* Boolean, default False, nullable *)
  created_at : datetime
}.
End User.

(** The [polymorphic_identity] of the four mapped subclasses of [Post]. *)
Inductive post_type := Found | Lost | Looking | Stolen.

Definition post_type_eqb (a b : post_type) : bool :=
  match a, b with
  | Found, Found | Lost, Lost | Looking, Looking | Stolen, Stolen => true
  | _, _ => false
  end.

Definition polymorphic_identity (ty : post_type) : string :=
  match ty with
  | Found => "found" | Lost => "lost" | Looking => "looking" | Stolen => "stolen"
  end.

Module Post.
Record t := mk {
  id : Z;
  description : string;
  location : string;
  contact_info : string;
  date_posted : datetime;
  post_type : post_type;
  user_id : Z;
  image : option string;
  vehicle_details : option string   (* column of StolenPost only *)
}.
End Post.

Module Comment.
Record t := mk {
  id : Z;
  content : string;
  date_posted : datetime;
  user_id : Z;
  post_id : Z
}.
End Comment.

Module Review.
Record t := mk {
  id : Z;
  rating : Z;
  review : option string;
  user_id : Z;
  reviewed_user_id : Z
}.
End Review.

(** The four tables, each in storage order. *)
Record database := mk_database {
  users : list User.t;
  posts : list Post.t;
  comments : list Comment.t;
  reviews : list Review.t
}.

(** *** The relationships

    A [db.relationship] of class [rel_class], named [rel_name], towards
    [rel_target]; [rel_backref] is the property it asks the mapper of the
    target to carry. *)
Record relationship := mk_relationship {
  rel_class : string;
  rel_name : string;
  rel_target : string;
  rel_backref : option string
}.

(** The seven declarations of [app/models.py], in source order. *)
Definition models_py : list relationship :=
  [mk_relationship "User" "posts" "Post" (Some "user");
   mk_relationship "User" "comments" "Comment" (Some "user");
   mk_relationship "User" "written_reviews" "Review" (Some "reviewer");
   mk_relationship "User" "received_reviews" "Review" (Some "reviewed_user");
   mk_relationship "Post" "comments" "Comment" (Some "post");
   mk_relationship "Review" "reviewer" "User" (Some "written_reviews");
   mk_relationship "Review" "reviewed_user" "User" (Some "received_reviews")].

(** The properties the declarations give each class: the relationship on
    its own class, the backref on the target. *)
Definition declared_properties (decls : list relationship) : list (string * string) :=
  flat_map (fun r =>
              (rel_class r, rel_name r)
              :: match rel_backref r with
                 | Some b => [(rel_target r, b)]
                 | None => []
                 end)
           decls.

Definition property_eqb (a b : string * string) : bool :=
  (fst a =? fst b)%string && (snd a =? snd b)%string.

Fixpoint has_duplicate (l : list (string * string)) : bool :=
  match l with
  | [] => false
  | x :: l' => existsb (property_eqb x) l' || has_duplicate l'
  end.

(** Mapper configuration refuses a backref whose name the target class
    already carries. *)
Definition mappers_conflict (decls : list relationship) : bool :=
  has_duplicate (declared_properties decls).

(** ** The world *)

(** A message handed to [mail.send]. *)
Record Message := mk_message {
  subject : string;
  sender : option string;
  recipients : list string;
  msg_body : string
}.

(** What the database refuses when a statement runs. *)
Inductive db_error :=
| NotNull (column : string)        (* NULL in a nullable=False column *)
| Unique (column : string)         (* a second row with a unique=True value *)
| Unbindable                       (* a list or dict as a bound parameter *)
| IntegerOverflow                  (* an integer beyond 64 bits *)
| NotBoolean.                      (* a Boolean column given neither bool, 0, 1 nor None *)

(** What the source leaves to its environment: the exception each library
    raises, with its class and text, whether a given file can be written
    and a given message sent, and [str.lower] on text that is not ASCII. *)
Record environment := mk_environment {
  mapper_failure : exn;                    (* SQLAlchemy, on mappers that do not configure *)
  database_failure : db_error -> exn;      (* SQLAlchemy, on a refused statement *)
  session_failure : exn;                   (* SQLAlchemy, on an object of another session *)
  save_failure : string -> option exn;     (* [image.save(path)] *)
  smtp_failure : Message -> option exn;    (* [mail.send(msg)] *)
  unicode_lower : string -> string
}.

(** Everything a view can read or change. *)
Record world := mk_world {
  w_db : database;
  w_uploads : list (string * string);   (* path as passed to [image.save], content *)
  w_outbox : list Message;
  w_now : datetime;                     (* datetime.utcnow() *)
  w_time : Z;                           (* time.time() *)
  w_registry : list relationship;       (* the mappers the process has registered *)
  w_env : environment
}.

(** A process that has imported [app/models.py]. *)
Definition as_shipped (w : world) : Prop := w_registry w = models_py.

Definition set_db (w : world) (db : database) : world :=
  mk_world db (w_uploads w) (w_outbox w) (w_now w) (w_time w) (w_registry w) (w_env w).

Definition add_upload (w : world) (path content : string) : world :=
  mk_world (w_db w) ((path, content) :: w_uploads w) (w_outbox w) (w_now w) (w_time w)
           (w_registry w) (w_env w).

Definition add_mail (w : world) (m : Message) : world :=
  mk_world (w_db w) (w_uploads w) (w_outbox w ++ [m]) (w_now w) (w_time w)
           (w_registry w) (w_env w).

(** ** Rows of the tables *)

(** The row of [users] with this primary key. *)
Definition users_get (db : database) (uid : Z) : option User.t :=
  find (fun u => User.id u =? uid) (users db).

(** The first row of [users] with this address. *)
Definition users_by_email (db : database) (e : string) : option User.t :=
  find (fun u => (User.email u =? e)%string) (users db).

(** The rows of [posts] that carry the identity of a mapped subclass. *)
Definition posts_all (ty : post_type) (db : database) : list Post.t :=
  filter (fun p => post_type_eqb (Post.post_type p) ty) (posts db).

(** The row of a mapped subclass with this primary key: a row of another
    identity is not one. *)
Definition posts_get (ty : post_type) (db : database) (pid : Z) : option Post.t :=
  find (fun p => Post.id p =? pid) (posts_all ty db).

(** The rows of [comments] on a post. *)
Definition comments_of_post (db : database) (pid : Z) : list Comment.t :=
  filter (fun c => Comment.post_id c =? pid) (comments db).

(** The next value of an integer primary key: one past the largest in use. *)
Definition next_id (ids : list Z) : Z := 1 + fold_right Z.max 0 ids.

(** ** The handler monad: state and exceptions *)

Definition M (A : Type) : Type := world -> (exn + A) * world.

Definition ret {A : Type} (a : A) : M A := fun w => (inr a, w).

Definition raise {A : Type} (e : exn) : M A := fun w => (inl e, w).

Definition bind {A B : Type} (c : M A) (k : A -> M B) : M B :=
  fun w =>
    match c w with
    | (inl e, w') => (inl e, w')
    | (inr a, w') => k a w'
    end.

Declare Scope handler_scope.
Delimit Scope handler_scope with handler.
Notation "x <- c ;; k" := (bind c (fun x => k))
  (at level 61, c at next level, right associativity) : handler_scope.
Notation "c ;;; k" := (bind c (fun _ => k))
  (at level 61, right associativity) : handler_scope.
Local Open Scope handler_scope.

(** [try: body / except Exception as e: handler(e)] *)
Definition try_except {A : Type} (body : M A) (handler : exn -> M A) : M A :=
  fun w =>
    match body w with
    | (inl e, w') => handler e w'
    | (inr a, w') => (inr a, w')
    end.

(** A pure computation that may raise. *)
Definition lift {A : Type} (r : exn + A) : M A :=
  match r with
  | inl e => raise e
  | inr a => ret a
  end.

Definition get_db : M database := fun w => (inr (w_db w), w).

Definition get_env : M environment := fun w => (inr (w_env w), w).

Definition utcnow : M datetime := fun w => (inr (w_now w), w).

Definition time : M Z := fun w => (inr (w_time w), w).

(** An exception the environment words. *)
Definition raise_from {A : Type} (failure : environment -> exn) : M A :=
  fun w => (inl (failure (w_env w)), w).

(** A statement the database runs or refuses. *)
Definition execute {A : Type} (r : db_error + A) : M A :=
  match r with
  | inl err => raise_from (fun env => database_failure env err)
  | inr a => ret a
  end.

(** [mail.send(msg)]: the message goes out, or the connection to the mail
    server raises. *)
Definition mail_send (msg : Message) : M unit :=
  fun w =>
    match smtp_failure (w_env w) msg with
    | Some e => (inl e, w)
    | None => (inr tt, add_mail w msg)
    end.

(** ** The ORM *)

(** The first use of a mapped class configures the mappers.
    [Cls.query], for any mapped class [Cls], is such a use. *)
Definition configure_mappers : M unit :=
  fun w =>
    if mappers_conflict (w_registry w)
    then (inl (mapper_failure (w_env w)), w)
    else (inr tt, w).

Definition Cls_query : M unit := configure_mappers.

(** [User.query.get(user_id)] *)
Definition User_query_get (uid : Z) : M (option User.t) :=
  Cls_query ;;;
  db <- get_db ;;
  ret (users_get db uid).

(** [Cls.query.get(post_id)] for a mapped subclass of [Post] *)
Definition Post_query_get (ty : post_type) (pid : Z) : M (option Post.t) :=
  Cls_query ;;;
  db <- get_db ;;
  ret (posts_get ty db pid).

(** The two [SQLAlchemy()] objects.  [app/__init__.py] makes the one the
    post modules and [users.py] import as [db]; [app/models.py] makes the
    one the mapped classes are built on, which [admins.py] imports.
    [Cls.query] loads its rows into the session of the second. *)
Inductive session := app_db | models_db.

(** [db.session.commit()] of pending changes: the flush either is refused,
    and nothing is stored, or replaces the committed database. *)
Definition commit (pending : db_error + database) : M unit :=
  match pending with
  | inl err => raise_from (fun env => database_failure env err)
  | inr db' => fun w => (inr tt, set_db w db')
  end.

(** [db.session.commit()] after assignments to, or the deletion of, a row
    that [Cls.query] loaded: only the session that holds the row has
    anything to flush. *)
Definition commit_loaded (db : session) (pending : db_error + database) : M unit :=
  match db with
  | models_db => commit pending
  | app_db => ret tt
  end.

(** [db.session.delete(row)] for a row that [Cls.query] loaded: another
    session refuses an object that is attached elsewhere. *)
Definition session_delete (db : session) : M unit :=
  match db with
  | models_db => ret tt
  | app_db => raise_from session_failure
  end.

(** ** Responses *)

Definition response : Type := json * Z.

(** [jsonify({'message': m}), code] *)
Definition message (m : string) (code : Z) : response :=
  (JDict [("message", JStr m)], code).

(** What the client receives: the view's own response, or the framework's
    500 page when the view function lets an exception escape. *)
Inductive http_response :=
| Returned (r : response)
| InternalServerError (e : exn).

Definition status_code (h : http_response) : Z :=
  match h with
  | Returned r => snd r
  | InternalServerError _ => 500
  end.

(** Flask's dispatch of a view function. *)
Definition dispatch (view : M response) (w : world) : http_response * world :=
  match view w with
  | (inr r, w') => (Returned r, w')
  | (inl e, w') => (InternalServerError e, w')
  end.

(** ** Session changes and the constraints a flush enforces *)

(** Sequencing of flush checks. *)
Definition and_then {A B : Type} (r : db_error + A) (k : A -> db_error + B)
  : db_error + B :=
  match r with
  | inl e => inl e
  | inr a => k a
  end.

(** A [nullable=False] column refuses [None]. *)
Definition not_null {A : Type} (column : string) (v : option A) : db_error + A :=
  match v with
  | Some a => inr a
  | None => inl (NotNull column)
  end.

(** [db.session.add(Cls(description=..., ...))] for a post row, with the
    values as [data.get] hands them over. *)
Definition insert_post (db : database) (ty : post_type)
           (description location contact_info : option string)
           (date_posted : datetime) (user_id : Z)
           (image vehicle_details : option string) : db_error + database :=
  and_then (not_null "posts.description" description) (fun d =>
  and_then (not_null "posts.location" location) (fun l =>
  and_then (not_null "posts.contact_info" contact_info) (fun c =>
  let row := Post.mk (next_id (map Post.id (posts db))) d l c date_posted ty
                     user_id image vehicle_details in
  inr (mk_database (users db) (posts db ++ [row]) (comments db) (reviews db))))).

(** Attribute assignments on a loaded post row, as its session flushes
    them. *)
Definition assign_post (db : database) (post : Post.t)
           (description location contact_info : option string)
           (image vehicle_details : option string) : db_error + database :=
  and_then (not_null "posts.description" description) (fun d =>
  and_then (not_null "posts.location" location) (fun l =>
  and_then (not_null "posts.contact_info" contact_info) (fun c =>
  let row := Post.mk (Post.id post) d l c (Post.date_posted post)
                     (Post.post_type post) (Post.user_id post)
                     image vehicle_details in
  inr (mk_database (users db)
         (map (fun q => if Post.id q =? Post.id post then row else q) (posts db))
         (comments db) (reviews db))))).

(** The deletion of a loaded post, as its session flushes it: the
    [comments] relationship has no delete cascade, so the unit of work first
    sets [post_id] of the post's comments to NULL, which [nullable=False]
    refuses. *)
Definition session_delete_post (db : database) (p : Post.t) : db_error + database :=
  match comments_of_post db (Post.id p) with
  | [] =>
      inr (mk_database (users db)
             (filter (fun q => negb (Post.id q =? Post.id p)) (posts db))
             (comments db) (reviews db))
  | _ :: _ => inl (NotNull "comments.post_id")
  end.

Definition string_of_Z (n : Z) : string :=
  DecimalString.NilZero.string_of_int (Z.to_int n).

(** The integers SQLite stores. *)
Definition in_int64 (n : Z) : bool :=
  (- 9223372036854775808 <=? n) && (n <=? 9223372036854775807).

(** A bound parameter of a [String] column: the driver takes text and
    64-bit integers (compared and stored as text), and refuses
    containers. *)
Definition bind_text (v : json) : db_error + option string :=
  match v with
  | JNull => inr None
  | JStr s => inr (Some s)
  | JInt n => if in_int64 n then inr (Some (string_of_Z n)) else inl IntegerOverflow
  | JBool b => inr (Some (if b then "1" else "0"))
  | JDateTime _ | JList _ | JDict _ => inl Unbindable
  end.

(** [db.session.add(Comment(content=..., user_id=..., post_id=...))] *)
Definition insert_comment (db : database) (content : json)
           (date_posted : datetime) (user_id post_id : Z) : db_error + database :=
  and_then (bind_text content) (fun text =>
  and_then (not_null "comments.content" text) (fun c =>
  let row := Comment.mk (next_id (map Comment.id (comments db))) c date_posted
                        user_id post_id in
  inr (mk_database (users db) (posts db) (comments db ++ [row]) (reviews db)))).

(** ** Uploaded files *)

(** A werkzeug [FileStorage]: its truth value is that of its file name. *)
Record FileStorage := mk_file { filename : string; stream : string }.

Definition truthy_file (image : option FileStorage) : option FileStorage :=
  match image with
  | Some f => if (filename f =? "")%string then None else Some f
  | None => None
  end.

Definition starts_with_slash (s : string) : bool :=
  match s with
  | String c _ => (c =? "/")%char
  | EmptyString => false
  end.

Fixpoint ends_with_slash (s : string) : bool :=
  match s with
  | EmptyString => false
  | String c EmptyString => (c =? "/")%char
  | String _ s' => ends_with_slash s'
  end.

(** [os.path.join(folder, name)] on POSIX. *)
Definition path_join (folder name : string) : string :=
  if starts_with_slash name then name
  else if (folder =? "")%string || ends_with_slash folder then (folder ++ name)%string
  else (folder ++ "/" ++ name)%string.

(** [image.save(filepath)]: the file is written, or opening it raises (a
    folder that does not exist, a path that is a directory, ...). *)
Definition image_save (image : FileStorage) (filepath : string) : M unit :=
  fun w =>
    match save_failure (w_env w) filepath with
    | Some e => (inl e, w)
    | None => (inr tt, add_upload w filepath (stream image))
    end.

(** [xs = [f(x) for x in l]] where [f] may raise. *)
Fixpoint comprehension {A B : Type} (f : A -> exn + B) (l : list A) : exn + list B :=
  match l with
  | [] => inr []
  | x :: l' =>
      match f x with
      | inl e => inl e
      | inr y =>
          match comprehension f l' with
          | inl e => inl e
          | inr ys => inr (y :: ys)
          end
      end
  end.

(** ** Text *)

(** [lower()] as SQLite has it: the 26 ASCII capitals are folded. *)
Definition lower_ascii (c : ascii) : ascii :=
  let n := nat_of_ascii c in
  if ((65 <=? n) && (n <=? 90))%nat then ascii_of_nat (n + 32) else c.

Fixpoint lower (s : string) : string :=
  match s with
  | EmptyString => EmptyString
  | String c s' => String (lower_ascii c) (lower s')
  end.

Fixpoint is_ascii (s : string) : bool :=
  match s with
  | EmptyString => true
  | String c s' => (nat_of_ascii c <? 128)%nat && is_ascii s'
  end.

(** Python's [str.lower]: on ASCII text it folds the 26 capitals; on other
    text it follows the Unicode tables, which the environment stands for. *)
Definition str_lower (env : environment) (s : string) : string :=
  if is_ascii s then lower s else unicode_lower env s.

(** [m] holds of some suffix of [s]: what a [%] in a pattern allows. *)
Fixpoint like_any (m : string -> bool) (s : string) : bool :=
  m s || match s with
         | EmptyString => false
         | String _ s' => like_any m s'
         end.

(** [s LIKE pat] without an escape character: [%] stands for any run of
    characters, [_] for any single one. *)
Fixpoint like (pat s : string) : bool :=
  match pat with
  | EmptyString =>
      match s with EmptyString => true | String _ _ => false end
  | String c pat' =>
      if (c =? "%")%char then like_any (like pat') s
      else
        match s with
        | EmptyString => false
        | String d s' => ((c =? "_")%char || (c =? d)%char) && like pat' s'
        end
  end.

(** [column.ilike(pat)], rendered as [lower(column) LIKE lower(pat)]. *)
Definition ilike (column pat : string) : bool := like (lower pat) (lower column).

(** ** The post modules

    [found.py], [lost.py], [looking.py] and [stolen.py] are the same module
    up to the mapped class they import and the extra [vehicle_details]
    column of [stolen.py]; [ty] is that class. *)

Definition type_title (ty : post_type) : string :=
  match ty with
  | Found => "Found" | Lost => "Lost" | Looking => "Looking" | Stolen => "Stolen"
  end.

(** [jsonify({'message': f'An error occurred: {str(e)}'}), 500] *)
Definition an_error_occurred (e : exn) : M response :=
  ret (message ("An error occurred: " ++ str_exn e)%string 500).

(** [validate_post_data] *)
Definition validate_post_data (data : multidict) : list string :=
  let errors := [] in
  let errors :=
    if negb (truthy_str (form_get data "description"))
    then errors ++ ["Description is required."] else errors in
  let errors :=
    if negb (truthy_str (form_get data "location"))
    then errors ++ ["Location is required."] else errors in
  let errors :=
    if negb (truthy_str (form_get data "contact_info"))
    then errors ++ ["Contact information is required."] else errors in
  errors.

Definition errors_response (errors : list string) : response :=
  (JDict [("errors", JList (map JStr errors))], 400).

(** [post.user.username], through the [user] backref. *)
Definition post_username (db : database) (post : Post.t) : exn + string :=
  match users_get db (Post.user_id post) with
  | Some u => inr (User.username u)
  | None => inl (no_attribute JNull "username")
  end.

(** The dict literal the read views build for one post. *)
Definition post_data (ty : post_type) (db : database) (post : Post.t) : exn + json :=
  match post_username db post with
  | inl e => inl e
  | inr name =>
      inr (JDict
             ([("id", JInt (Post.id post));
               ("description", JStr (Post.description post));
               ("location", JStr (Post.location post));
               ("contact_info", JStr (Post.contact_info post))]
              ++ match ty with
                 | Stolen => [("vehicle_details", json_of_opt_str (Post.vehicle_details post))]
                 | _ => []
                 end
              ++ [("image", json_of_opt_str (Post.image post));
                  ("date_posted", JDateTime (Post.date_posted post));
                  ("username", JStr name)]))
  end.

(** [comment.user.username] *)
Definition comment_username (db : database) (c : Comment.t) : exn + string :=
  match users_get db (Comment.user_id c) with
  | Some u => inr (User.username u)
  | None => inl (no_attribute JNull "username")
  end.

Definition comment_data (db : database) (c : Comment.t) : exn + json :=
  match comment_username db c with
  | inl e => inl e
  | inr name =>
      inr (JDict [("id", JInt (Comment.id c));
                  ("content", JStr (Comment.content c));
                  ("date_posted", JDateTime (Comment.date_posted c));
                  ("username", JStr name)])
  end.

(** [from app import db] *)
Definition post_module_db : session := app_db.

(** [request.args.get(k, '').lower()] *)
Definition arg_lower (env : environment) (a : option string) : string :=
  str_lower env (match a with Some s => s | None => "" end).

Section PostModule.

(** [werkzeug.utils.secure_filename] and [current_app.config['UPLOAD_FOLDER']] *)
Variable secure_filename : string -> string.
Variable UPLOAD_FOLDER : string.

(** [save_image] *)
Definition save_image (image : FileStorage) : M string :=
  let filename := secure_filename (filename image) in
  let filepath := path_join UPLOAD_FOLDER filename in
  image_save image filepath ;;;
  ret filename.

(** [create_found_post] and its three copies; [identity] is what
    [get_jwt_identity()] returns under [@jwt_required()]. *)
Definition create_post (ty : post_type) (identity : Z)
           (data : multidict) (image : option FileStorage) : M response :=
  try_except
    (let errors := validate_post_data data in
     match errors with
     | _ :: _ => ret (errors_response errors)
     | [] =>
         image_filename <-
           match truthy_file image with
           | Some f => name <- save_image f ;; ret (Some name)
           | None => ret None
           end ;;
         let user_id := identity in
         user <- User_query_get user_id ;;
         match user with
         | None => ret (message "User not found" 404)
         | Some user =>
             now <- utcnow ;;
             db <- get_db ;;
             commit (insert_post db ty
                       (form_get data "description")
                       (form_get data "location")
                       (form_get data "contact_info")
                       now (User.id user) image_filename
                       (match ty with
                        | Stolen => form_get data "vehicle_details"
                        | _ => None
                        end)) ;;;
             ret (JDict [("message", JStr (type_title ty ++ " post created successfully")%string);
                         ("image", json_of_opt_str image_filename)], 201)
         end
     end)
    an_error_occurred.

(** [get_all_found_posts] and its copies *)
Definition get_all_posts (ty : post_type) : M response :=
  try_except
    (Cls_query ;;;
     db <- get_db ;;
     let posts := posts_all ty db in
     posts_data <- lift (comprehension (post_data ty db) posts) ;;
     ret (JList posts_data, 200))
    an_error_occurred.

(** [get_found_post] and its copies *)
Definition get_post (ty : post_type) (post_id : Z) : M response :=
  try_except
    (post <- Post_query_get ty post_id ;;
     match post with
     | None => ret (message "Post not found" 404)
     | Some post =>
         db <- get_db ;;
         post_data <- lift (post_data ty db post) ;;
         ret (post_data, 200)
     end)
    an_error_occurred.

(** [search_found_posts] and its copies *)
Definition search_posts (ty : post_type) (keyword_arg location_arg : option string)
  : M response :=
  try_except
    (env <- get_env ;;
     let keyword := arg_lower env keyword_arg in
     let location := arg_lower env location_arg in
     Cls_query ;;;
     db <- get_db ;;
     let query := posts_all ty db in
     let query :=
       if negb (keyword =? "")%string
       then filter (fun p => ilike (Post.description p) ("%" ++ keyword ++ "%")%string) query
       else query in
     let query :=
       if negb (location =? "")%string
       then filter (fun p => ilike (Post.location p) ("%" ++ location ++ "%")%string) query
       else query in
     let posts := query in
     posts_data <- lift (comprehension (post_data ty db) posts) ;;
     ret (JList posts_data, 200))
    an_error_occurred.

(** [update_found_post] and its copies; [stolen.py] also assigns
    [vehicle_details].  The assignments are made to a row of the session
    of [app.models.db]; the commit is that of [post_module_db]. *)
Definition update_post (ty : post_type) (post_id : Z) (identity : Z)
           (data : multidict) (image : option FileStorage) : M response :=
  try_except
    (post <- Post_query_get ty post_id ;;
     match post with
     | None => ret (message "Post not found" 404)
     | Some post =>
         let user_id := identity in
         if negb (Post.user_id post =? user_id)
         then ret (message "Unauthorized to update this post" 403)
         else
           let errors := validate_post_data data in
           match errors with
           | _ :: _ => ret (errors_response errors)
           | [] =>
               let description :=
                 form_get_default data "description" (Some (Post.description post)) in
               let location :=
                 form_get_default data "location" (Some (Post.location post)) in
               let contact_info :=
                 form_get_default data "contact_info" (Some (Post.contact_info post)) in
               let vehicle_details :=
                 match ty with
                 | Stolen =>
                     form_get_default data "vehicle_details" (Post.vehicle_details post)
                 | _ => Post.vehicle_details post
                 end in
               image_filename <-
                 match truthy_file image with
                 | Some f => name <- save_image f ;; ret (Some name)
                 | None => ret (Post.image post)
                 end ;;
               db <- get_db ;;
               commit_loaded post_module_db
                 (assign_post db post description location contact_info
                              image_filename vehicle_details) ;;;
               ret (message (type_title ty ++ " post updated successfully")%string 200)
           end
     end)
    an_error_occurred.

(** [delete_found_post] and its copies *)
Definition delete_post (ty : post_type) (post_id : Z) (identity : Z) : M response :=
  try_except
    (post <- Post_query_get ty post_id ;;
     match post with
     | None => ret (message "Post not found" 404)
     | Some post =>
         let user_id := identity in
         if negb (Post.user_id post =? user_id)
         then ret (message "Unauthorized to delete this post" 403)
         else
           session_delete post_module_db ;;;
           db <- get_db ;;
           commit_loaded post_module_db (session_delete_post db post) ;;;
           ret (message (type_title ty ++ " post deleted successfully")%string 200)
     end)
    an_error_occurred.

(** [add_comment]; [data] is what [request.get_json()] returns. *)
Definition add_comment (ty : post_type) (post_id : Z) (identity : Z) (data : json)
  : M response :=
  try_except
    (content <- lift (json_get data "content") ;;
     if negb (truthy content)
     then ret (message "Comment content is required" 400)
     else
       let user_id := identity in
       user <- User_query_get user_id ;;
       post <- Post_query_get ty post_id ;;
       match post with
       | None => ret (message "Post not found" 404)
       | Some post =>
           uid <- lift (match user with
                        | Some u => inr (User.id u)
                        | None => inl (no_attribute JNull "id")
                        end) ;;
           now <- utcnow ;;
           db <- get_db ;;
           commit (insert_comment db content now uid (Post.id post)) ;;;
           ret (message "Comment added successfully" 201)
       end)
    an_error_occurred.

(** [get_comments] *)
Definition get_comments (ty : post_type) (post_id : Z) : M response :=
  try_except
    (post <- Post_query_get ty post_id ;;
     match post with
     | None => ret (message "Post not found" 404)
     | Some post =>
         Cls_query ;;;
         db <- get_db ;;
         let comments := comments_of_post db post_id in
         comments_data <- lift (comprehension (comment_data db) comments) ;;
         ret (JList comments_data, 200)
     end)
    an_error_occurred.

End PostModule.

(** ** Module-level names

    A function body looks its free names up in the globals of its module
    when it runs.  These are the names [users.py] and [admins.py] bind:
    their imports, then their own definitions. *)

Definition users_globals : list string :=
  ["Blueprint"; "request"; "jsonify";
   "generate_password_hash"; "check_password_hash";
   "create_access_token"; "create_refresh_token"; "jwt_required"; "get_jwt_identity";
   "Message"; "db"; "mail"; "User"; "Limiter"; "get_remote_address";
   "jwt"; "datetime"; "timedelta"; "os";
   "users_bp"; "limiter"; "send_reset_email"; "register"; "login"; "refresh_token";
   "get_current_user"; "request_password_reset"; "reset_password";
   "get_all_users"; "delete_user"].

Definition admins_globals : list string :=
  ["Blueprint"; "jsonify"; "request";
   "jwt_required"; "get_jwt_identity";
   "User"; "Post"; "Comment"; "Review"; "db";
   "func"; "Limiter"; "get_remote_address";
   "admins_bp"; "limiter"; "is_admin"; "admin_analytics"; "get_all_users";
   "create_user"; "update_user"; "delete_user"; "get_user"; "get_user_activity"].

(** Evaluating the name [name] in a module whose globals are [globals];
    [value] is the object the name denotes where it is bound. *)
Definition load_global {A : Type} (globals : list string) (name : string) (value : A)
  : M A :=
  if existsb (String.eqb name) globals
  then ret value
  else raise (Exn NameError ("name '" ++ name ++ "' is not defined")%string).

(** ** User rows *)

(** A bound parameter of a [Boolean] column. *)
Definition bind_boolean (v : json) : db_error + option bool :=
  match v with
  | JNull => inr None
  | JBool b => inr (Some b)
  | JInt 0 => inr (Some false)
  | JInt 1 => inr (Some true)
  | _ => inl NotBoolean
  end.

(** The password argument of [generate_password_hash] and
    [check_password_hash], which call its [encode]. *)
Definition as_str (v : json) : exn + string :=
  match v with
  | JStr s => inr s
  | _ => inl (no_attribute v "encode")
  end.

(** [filter_by(email=v).first()] on [users], for a value taken from a
    body. *)
Definition users_by_email_value (db : database) (v : json) : db_error + option User.t :=
  and_then (bind_text v) (fun text =>
  match text with
  | Some e => inr (users_by_email db e)
  | None => inr None
  end).

(** The integer a text denotes, where it is a decimal literal: what the
    integer affinity of a column makes of a text operand. *)
Definition integer_of_text (s : string) : option Z :=
  option_map Z.of_int (DecimalString.NilEmpty.int_of_string s).

(** [get(v)] on [users], for an identity taken from a token payload. *)
Definition users_get_value (db : database) (v : json) : db_error + option User.t :=
  match v with
  | JNull => inr None
  | JInt n => if in_int64 n then inr (users_get db n) else inl IntegerOverflow
  | JBool b => inr (users_get db (if b then 1 else 0))
  | JStr s =>
      match integer_of_text s with
      | Some n => inr (users_get db n)
      | None => inr None
      end
  | JDateTime _ | JList _ | JDict _ => inl Unbindable
  end.

(** The [unique=True] columns of [users], checked against the other rows. *)
Definition unique_user (db : database) (self : Z) (username email : string)
  : db_error + unit :=
  if existsb (fun u => negb (User.id u =? self) && (User.username u =? username)%string)
             (users db)
  then inl (Unique "users.username")
  else if existsb (fun u => negb (User.id u =? self) && (User.email u =? email)%string)
                  (users db)
  then inl (Unique "users.email")
  else inr tt.

(** [db.session.add(User(email=..., username=..., password_hash=..., is_admin=...))] *)
Definition insert_user (db : database) (email username : json) (password_hash : string)
           (is_admin : json) (created_at : datetime) : db_error + database :=
  and_then (bind_text email) (fun e =>
  and_then (bind_text username) (fun n =>
  and_then (bind_boolean is_admin) (fun a =>
  and_then (not_null "users.username" n) (fun n =>
  and_then (not_null "users.email" e) (fun e =>
  let id := next_id (map User.id (users db)) in
  and_then (unique_user db id n e) (fun _ =>
  let row := User.mk id n e password_hash a created_at in
  inr (mk_database (users db ++ [row]) (posts db) (comments db) (reviews db)))))))).

(** Attribute assignments on a loaded user row, as its session flushes
    them. *)
Definition assign_user (db : database) (user : User.t)
           (username email is_admin : json) : db_error + database :=
  and_then (bind_text username) (fun n =>
  and_then (bind_text email) (fun e =>
  and_then (bind_boolean is_admin) (fun a =>
  and_then (not_null "users.username" n) (fun n =>
  and_then (not_null "users.email" e) (fun e =>
  and_then (unique_user db (User.id user) n e) (fun _ =>
  let row := User.mk (User.id user) n e (User.password_hash user) a
                     (User.created_at user) in
  inr (mk_database
         (map (fun u => if User.id u =? User.id user then row else u) (users db))
         (posts db) (comments db) (reviews db)))))))).

(** [user.password_hash = h], as the row's session flushes it: no
    constrained column changes. *)
Definition assign_password_hash (db : database) (user : User.t) (h : string)
  : db_error + database :=
  let row := User.mk (User.id user) (User.username user) (User.email user) h
                     (User.is_admin user) (User.created_at user) in
  inr (mk_database
         (map (fun u => if User.id u =? User.id user then row else u) (users db))
         (posts db) (comments db) (reviews db)).

(** The deletion of a loaded user, as its session flushes it: none of the
    four relationships of [User] has a delete cascade, so the flush sets
    the foreign key of every dependent row to NULL, and each of those
    columns is [nullable=False]. *)
Definition session_delete_user (db : database) (user : User.t) : db_error + database :=
  let uid := User.id user in
  if existsb (fun p => Post.user_id p =? uid) (posts db)
  then inl (NotNull "posts.user_id")
  else if existsb (fun c => Comment.user_id c =? uid) (comments db)
  then inl (NotNull "comments.user_id")
  else if existsb (fun r => Review.user_id r =? uid) (reviews db)
  then inl (NotNull "reviews.user_id")
  else if existsb (fun r => Review.reviewed_user_id r =? uid) (reviews db)
  then inl (NotNull "reviews.reviewed_user_id")
  else inr (mk_database (filter (fun u => negb (User.id u =? uid)) (users db))
                        (posts db) (comments db) (reviews db)).

Definition json_of_opt_bool (o : option bool) : json :=
  match o with None => JNull | Some b => JBool b end.

(** The dict literal the account views build for one user. *)
Definition user_data (user : User.t) : json :=
  JDict [("id", JInt (User.id user));
         ("username", JStr (User.username user));
         ("email", JStr (User.email user));
         ("is_admin", json_of_opt_bool (User.is_admin user));
         ("created_at", JDateTime (User.created_at user))].

(** [bool(flag)] for a nullable Boolean. *)
Definition truthy_flag (f : option bool) : bool :=
  match f with Some true => true | _ => false end.

Definition admin_access_required : response := message "Admin access required" 403.

Definition email_and_password_required : response :=
  message "Email and password are required" 400.

(** ** [app/models.py]: reset tokens, and [app/users/users.py] *)

Definition nl : string := String (ascii_of_nat 10) EmptyString.

(** [from app import db, mail] *)
Definition users_db : session := app_db.

Section UsersModule.

(** [werkzeug.security.generate_password_hash] *)
Variable generate_password_hash : string -> string.
(** [current_app.config['SECRET_KEY']] and [os.getenv('MAIL_DEFAULT_SENDER')] *)
Variable SECRET_KEY : string.
Variable MAIL_DEFAULT_SENDER : option string.
(** [jwt.encode(payload, key, algorithm='HS256')] *)
Variable jwt_encode : json -> string -> string.
(** [jwt.decode(token, key, algorithms=['HS256'])]: the payload, or the
    exception raised for a malformed token, a signature that does not
    verify, or an [exp] in the past. *)
Variable jwt_decode : string -> string -> exn + json.

(** [User.get_reset_token] *)
Definition get_reset_token (self : User.t) (expires_in : Z) : M string :=
  now <- time ;;
  ret (jwt_encode (JDict [("reset_password", JInt (User.id self));
                          ("exp", JInt (now + expires_in))])
                  SECRET_KEY).

(** [User.verify_reset_token]: the bare [except] covers the decoding and
    the subscript, the query runs after it. *)
Definition verify_reset_token (token : string) : M (option User.t) :=
  decoded <-
    try_except
      (payload <- lift (jwt_decode token SECRET_KEY) ;;
       user_id <- lift (json_getitem payload "reset_password") ;;
       ret (Some user_id))
      (fun _ => ret None) ;;
  match decoded with
  | None => ret None
  | Some user_id =>
      Cls_query ;;;
      db <- get_db ;;
      execute (users_get_value db user_id)
  end.

(** [send_reset_email] *)
Definition send_reset_email (url_root : string) (user : User.t) : M unit :=
  token <- get_reset_token user 600 ;;
  let msg :=
    mk_message "Password Reset Request" MAIL_DEFAULT_SENDER [User.email user]
      ("To reset your password, visit the following link:" ++ nl
       ++ url_root ++ "reset_password/" ++ token ++ nl
       ++ "If you did not make this request, simply ignore this email and no changes will be made."
       ++ nl)%string in
  mail_send msg.

(** [register] *)
Definition register (data : json) : M response :=
  if negb (truthy data) then ret email_and_password_required else
  email <- lift (json_get data "email") ;;
  if negb (truthy email) then ret email_and_password_required else
  password <- lift (json_get data "password") ;;
  if negb (truthy password) then ret email_and_password_required else
  Cls_query ;;;
  email <- lift (json_getitem data "email") ;;
  db <- get_db ;;
  existing <- execute (users_by_email_value db email) ;;
  match existing with
  | Some _ => ret (message "Email already registered" 400)
  | None =>
      hash <- load_global users_globals "generate_password_hash"
                          generate_password_hash ;;
      password <- lift (json_getitem data "password") ;;
      password <- lift (as_str password) ;;
      let hashed_password := hash password in
      email <- lift (json_getitem data "email") ;;
      username <- lift (json_get data "username") ;;
      now <- utcnow ;;
      db <- get_db ;;
      commit (insert_user db email username hashed_password (JBool false) now) ;;;
      ret (message "User registered successfully" 201)
  end.

(** [get_current_user] *)
Definition get_current_user (identity : Z) : M response :=
  let current_user_id := identity in
  user <- User_query_get current_user_id ;;
  match user with
  | None => ret (message "User not found" 404)
  | Some user => ret (user_data user, 200)
  end.

(** [request_password_reset]: [User.query] is evaluated before the
    argument [data['email']]; nothing catches what [mail.send] raises. *)
Definition request_password_reset (url_root : string) (data : json) : M response :=
  Cls_query ;;;
  email <- lift (json_getitem data "email") ;;
  db <- get_db ;;
  user <- execute (users_by_email_value db email) ;;
  match user with
  | Some user => send_reset_email url_root user
  | None => ret tt
  end ;;;
  ret (message "If your email exists, you will receive a password reset email shortly."
               200).

(** [reset_password]: the assignment is made to a row of the session of
    [app.models.db]; the commit is that of [users_db]. *)
Definition reset_password (token : string) (data : json) : M response :=
  user <- verify_reset_token token ;;
  match user with
  | None => ret (message "Invalid or expired token" 400)
  | Some user =>
      if negb (truthy data) then ret (message "Password is required" 400) else
      password <- lift (json_get data "password") ;;
      if negb (truthy password) then ret (message "Password is required" 400) else
      hash <- load_global users_globals "generate_password_hash"
                          generate_password_hash ;;
      password <- lift (json_getitem data "password") ;;
      password <- lift (as_str password) ;;
      db <- get_db ;;
      commit_loaded users_db (assign_password_hash db user (hash password)) ;;;
      ret (message "Password has been updated" 200)
  end.

End UsersModule.

Module users.

Section Sessions.

(** [werkzeug.security.check_password_hash] and the two token factories of
    [flask_jwt_extended], each applied to an identity. *)
Variable check_password_hash : string -> string -> bool.
Variable create_access_token : Z -> string.
Variable create_refresh_token : Z -> string.

(** [login] *)
Definition login (data : json) : M response :=
  if negb (truthy data) then ret email_and_password_required else
  email <- lift (json_get data "email") ;;
  if negb (truthy email) then ret email_and_password_required else
  password <- lift (json_get data "password") ;;
  if negb (truthy password) then ret email_and_password_required else
  Cls_query ;;;
  email <- lift (json_getitem data "email") ;;
  db <- get_db ;;
  user <- execute (users_by_email_value db email) ;;
  verified <-
    match user with
    | None => ret None
    | Some user =>
        check <- load_global users_globals "check_password_hash" check_password_hash ;;
        password <- lift (json_getitem data "password") ;;
        password <- lift (as_str password) ;;
        ret (if check (User.password_hash user) password then Some user else None)
    end ;;
  match verified with
  | Some user =>
      let access_token := create_access_token (User.id user) in
      let refresh_token := create_refresh_token (User.id user) in
      ret (JDict [("access_token", JStr access_token);
                  ("refresh_token", JStr refresh_token);
                  ("message", JStr "Login successful")], 200)
  | None => ret (message "Invalid credentials" 401)
  end.

(** [refresh_token], under [@jwt_required(refresh=True)] *)
Definition refresh_token (identity : Z) : M response :=
  let current_user := identity in
  let new_access_token := create_access_token current_user in
  ret (JDict [("access_token", JStr new_access_token)], 200).

End Sessions.

(** The test both admin views of [users.py] make:
    [not current_user or not current_user.is_admin]. *)
Definition not_admin (current_user : option User.t) : bool :=
  match current_user with
  | None => true
  | Some u => negb (truthy_flag (User.is_admin u))
  end.

(** [get_all_users] of [users.py] *)
Definition get_all_users (identity : Z) : M response :=
  let current_user_id := identity in
  current_user <- User_query_get current_user_id ;;
  if not_admin current_user
  then ret admin_access_required
  else
    Cls_query ;;;
    db <- get_db ;;
    let users_data := map user_data (users db) in
    ret (JList users_data, 200).

(** [delete_user] of [users.py] *)
Definition delete_user (identity : Z) (user_id : Z) : M response :=
  let current_user_id := identity in
  current_user <- User_query_get current_user_id ;;
  if not_admin current_user
  then ret admin_access_required
  else
    user <- User_query_get user_id ;;
    match user with
    | None => ret (message "User not found" 404)
    | Some user =>
        session_delete users_db ;;;
        db <- get_db ;;
        commit_loaded users_db (session_delete_user db user) ;;;
        ret (message "User deleted successfully" 200)
    end.

End users.

(** ** [app/users/admins.py] *)

(** [GROUP BY]: the rows of each key, the groups in the order of their
    keys, as SQLite's sorter leaves them. *)
Fixpoint group_insert {K R : Type} (cmp : K -> K -> comparison) (k : K) (r : R)
         (groups : list (K * list R)) : list (K * list R) :=
  match groups with
  | [] => [(k, [r])]
  | (k', rs) :: groups' =>
      match cmp k k' with
      | Eq => (k', rs ++ [r]) :: groups'
      | Lt => (k, [r]) :: groups
      | Gt => (k', rs) :: group_insert cmp k r groups'
      end
  end.

Definition group_by {K R : Type} (cmp : K -> K -> comparison) (key : R -> K) (rows : list R)
  : list (K * list R) :=
  fold_left (fun groups r => group_insert cmp (key r) r groups) rows [].

(** [func.count(column)]: the rows whose column is not NULL. *)
Definition count_non_null {R A : Type} (column : R -> option A) (rows : list R) : Z :=
  Z.of_nat (List.length (filter (fun r => match column r with Some _ => true | None => false end)
                           rows)).

(** [query(func.date(col).label('date'), func.count(id).label('total'))
     .group_by(func.date(col)).all()], rendered as the response lists it. *)
Definition per_day (dates : list datetime) : list json :=
  map (fun g : string * list datetime =>
         JDict [("date", JStr (fst g)); ("total", JInt (Z.of_nat (List.length (snd g))))])
      (group_by String.compare dt_date dates).

(** [a LEFT OUTER JOIN b]: every match, or one row with NULLs. *)
Definition outerjoin {A B : Type} (on : A -> B -> bool) (l : list A) (r : list B)
  : list (A * option B) :=
  flat_map (fun a =>
              match filter (on a) r with
              | [] => [(a, None)]
              | matches => map (fun b => (a, Some b)) matches
              end) l.

(** The order of a nullable text: NULL sorts first. *)
Definition opt_compare (x y : option string) : comparison :=
  match x, y with
  | None, None => Eq
  | None, Some _ => Lt
  | Some _, None => Gt
  | Some a, Some b => String.compare a b
  end.

Definition activity_row : Type := (User.t * option Post.t) * option Comment.t.

Definition activity_key (r : activity_row) : string * option string * option string :=
  (User.username (fst (fst r)),
   option_map (fun p => dt_date (Post.date_posted p)) (snd (fst r)),
   option_map (fun c => dt_date (Comment.date_posted c)) (snd r)).

Definition activity_key_compare (a b : string * option string * option string)
  : comparison :=
  match String.compare (fst (fst a)) (fst (fst b)) with
  | Eq =>
      match opt_compare (snd (fst a)) (snd (fst b)) with
      | Eq => opt_compare (snd a) (snd b)
      | c => c
      end
  | c => c
  end.

(** The [user_activity] query and its rendering. *)
Definition user_activity (db : database) : list json :=
  let joined : list activity_row :=
    outerjoin (fun (up : User.t * option Post.t) c => Comment.user_id c =? User.id (fst up))
              (outerjoin (fun u p => Post.user_id p =? User.id u) (users db) (posts db))
              (comments db) in
  map (fun g : (string * option string * option string) * list activity_row =>
         let '(username, post_date, comment_date) := fst g in
         JDict [("username", JStr username);
                ("post_date", json_of_opt_str post_date);
                ("comment_date", json_of_opt_str comment_date);
                ("total_posts", JInt (count_non_null (fun r : activity_row => snd (fst r)) (snd g)));
                ("total_comments", JInt (count_non_null (fun r : activity_row => snd r) (snd g)))])
      (group_by activity_key_compare activity_key joined).

(** [from app.models import ..., db] *)
Definition admins_db : session := models_db.

Section AdminsModule.

(** The object [generate_password_hash] would denote, were it bound. *)
Variable generate_password_hash : string -> string.

(** [is_admin]: [user.is_admin if user else False]; the flag itself may
    be NULL, which [not] treats like [False]. *)
Definition is_admin (user_id : Z) : M (option bool) :=
  user <- User_query_get user_id ;;
  ret (match user with
       | Some user => User.is_admin user
       | None => Some false
       end).

(** [admin_analytics] *)
Definition admin_analytics (identity : Z) : M response :=
  let current_user_id := identity in
  admin <- is_admin current_user_id ;;
  if negb (truthy_flag admin)
  then ret admin_access_required
  else
    try_except
      (Cls_query ;;;
       db <- get_db ;;
       let total_users := Z.of_nat (List.length (users db)) in
       let total_posts := Z.of_nat (List.length (posts db)) in
       let total_comments := Z.of_nat (List.length (comments db)) in
       let users_per_day := per_day (map User.created_at (users db)) in
       let posts_per_day := per_day (map Post.date_posted (posts db)) in
       let comments_per_day := per_day (map Comment.date_posted (comments db)) in
       let analytics :=
         JDict [("total_users", JInt total_users);
                ("total_posts", JInt total_posts);
                ("total_comments", JInt total_comments);
                ("users_per_day", JList users_per_day);
                ("posts_per_day", JList posts_per_day);
                ("comments_per_day", JList comments_per_day);
                ("user_activity", JList (user_activity db))] in
       ret (analytics, 200))
      an_error_occurred.

(** [get_all_users] *)
Definition get_all_users (identity : Z) : M response :=
  let current_user_id := identity in
  admin <- is_admin current_user_id ;;
  if negb (truthy_flag admin)
  then ret admin_access_required
  else
    try_except
      (Cls_query ;;;
       db <- get_db ;;
       let users_data := map user_data (users db) in
       ret (JList users_data, 200))
      an_error_occurred.

(** [create_user] *)
Definition create_user (identity : Z) (data : json) : M response :=
  let current_user_id := identity in
  admin <- is_admin current_user_id ;;
  if negb (truthy_flag admin)
  then ret admin_access_required
  else
    if negb (truthy data) then ret email_and_password_required else
    email <- lift (json_get data "email") ;;
    if negb (truthy email) then ret email_and_password_required else
    password <- lift (json_get data "password") ;;
    if negb (truthy password) then ret email_and_password_required else
    Cls_query ;;;
    email <- lift (json_getitem data "email") ;;
    db <- get_db ;;
    existing <- execute (users_by_email_value db email) ;;
    match existing with
    | Some _ => ret (message "Email already registered" 400)
    | None =>
        hash <- load_global admins_globals "generate_password_hash"
                            generate_password_hash ;;
        password <- lift (json_getitem data "password") ;;
        password <- lift (as_str password) ;;
        let hashed_password := hash password in
        email <- lift (json_getitem data "email") ;;
        username <- lift (json_get data "username") ;;
        is_admin <- lift (json_get_default data "is_admin" (JBool false)) ;;
        now <- utcnow ;;
        db <- get_db ;;
        commit (insert_user db email username hashed_password is_admin now) ;;;
        ret (message "User created successfully" 201)
    end.

(** [update_user] *)
Definition update_user (identity : Z) (user_id : Z) (data : json) : M response :=
  let current_user_id := identity in
  admin <- is_admin current_user_id ;;
  if negb (truthy_flag admin)
  then ret admin_access_required
  else
    user <- User_query_get user_id ;;
    match user with
    | None => ret (message "User not found" 404)
    | Some user =>
        username <- lift (json_get_default data "username" (JStr (User.username user))) ;;
        email <- lift (json_get_default data "email" (JStr (User.email user))) ;;
        is_admin <- lift (json_get_default data "is_admin"
                                           (json_of_opt_bool (User.is_admin user))) ;;
        db <- get_db ;;
        commit_loaded admins_db (assign_user db user username email is_admin) ;;;
        ret (message "User updated successfully" 200)
    end.

(** [delete_user] *)
Definition delete_user (identity : Z) (user_id : Z) : M response :=
  let current_user_id := identity in
  admin <- is_admin current_user_id ;;
  if negb (truthy_flag admin)
  then ret admin_access_required
  else
    user <- User_query_get user_id ;;
    match user with
    | None => ret (message "User not found" 404)
    | Some user =>
        session_delete admins_db ;;;
        db <- get_db ;;
        commit_loaded admins_db (session_delete_user db user) ;;;
        ret (message "User deleted successfully" 200)
    end.

(** [get_user] *)
Definition get_user (identity : Z) (user_id : Z) : M response :=
  let current_user_id := identity in
  admin <- is_admin current_user_id ;;
  if negb (truthy_flag admin)
  then ret admin_access_required
  else
    user <- User_query_get user_id ;;
    match user with
    | None => ret (message "User not found" 404)
    | Some user => ret (user_data user, 200)
    end.

(** [get_user_activity] *)
Definition get_user_activity (identity : Z) (user_id : Z) : M response :=
  let current_user_id := identity in
  admin <- is_admin current_user_id ;;
  if negb (truthy_flag admin)
  then ret admin_access_required
  else
    user <- User_query_get user_id ;;
    match user with
    | None => ret (message "User not found" 404)
    | Some user =>
        Cls_query ;;;
        db <- get_db ;;
        let posts := filter (fun p => Post.user_id p =? User.id user) (posts db) in
        let comments := filter (fun c => Comment.user_id c =? User.id user) (comments db) in
        let activity :=
          JDict [("posts",
                  JList (map (fun post =>
                                JDict [("id", JInt (Post.id post));
                                       ("description", JStr (Post.description post));
                                       ("date_posted", JDateTime (Post.date_posted post))])
                             posts));
                 ("comments",
                  JList (map (fun comment =>
                                JDict [("id", JInt (Comment.id comment));
                                       ("content", JStr (Comment.content comment));
                                       ("date_posted", JDateTime (Comment.date_posted comment))])
                             comments))] in
        ret (activity, 200)
    end.

End AdminsModule.

(** ** The view functions under their own names *)

Module found.
Definition create_found_post sf uf := create_post sf uf Found.
Definition get_all_found_posts := get_all_posts Found.
Definition get_found_post := get_post Found.
Definition search_found_posts := search_posts Found.
Definition update_found_post sf uf := update_post sf uf Found.
Definition add_comment := add_comment Found.
Definition get_comments := get_comments Found.
End found.

Module lost.
Definition create_lost_post sf uf := create_post sf uf Lost.
Definition get_all_lost_posts := get_all_posts Lost.
Definition get_lost_post := get_post Lost.
Definition search_lost_posts := search_posts Lost.
Definition update_lost_post sf uf := update_post sf uf Lost.
Definition delete_lost_post := delete_post Lost.
Definition add_comment := add_comment Lost.
Definition get_comments := get_comments Lost.
End lost.

Module looking.
Definition create_looking_post sf uf := create_post sf uf Looking.
Definition get_all_looking_posts := get_all_posts Looking.
Definition get_looking_post := get_post Looking.
Definition search_looking_posts := search_posts Looking.
Definition update_looking_post sf uf := update_post sf uf Looking.
Definition delete_looking_post := delete_post Looking.
Definition add_comment := add_comment Looking.
Definition get_comments := get_comments Looking.
End looking.

Module stolen.
Definition create_stolen_post sf uf := create_post sf uf Stolen.
Definition get_all_stolen_posts := get_all_posts Stolen.
Definition get_stolen_post := get_post Stolen.
Definition search_stolen_posts := search_posts Stolen.
Definition update_stolen_post sf uf := update_post sf uf Stolen.
Definition delete_stolen_post := delete_post Stolen.
Definition add_comment := add_comment Stolen.
Definition get_comments := get_comments Stolen.
End stolen.

(** ** A sample world

    Alice (id 1) administers the site and owns a found post; Bob (id 2)
    owns a lost post and a stolen post.  The process has imported
    [app/models.py]; every file can be written and every message sent. *)

Definition day1 : datetime := mk_datetime "2024-05-01" "09:00:00".
Definition day2 : datetime := mk_datetime "2024-05-02" "10:30:00".

Definition alice : User.t := User.mk 1 "alice" "alice@example.com" "h1" (Some true) day1.
Definition bob : User.t := User.mk 2 "bob" "bob@example.com" "h2" (Some false) day1.

Definition blue_bike : Post.t :=
  Post.mk 1 "Blue Bike" "Central Park" "555-0001" day1 Found 1 None None.
Definition red_wallet : Post.t :=
  Post.mk 2 "Red wallet" "Main St" "555-1234" day2 Lost 2 None None.
Definition bike_seat : Post.t :=
  Post.mk 3 "BIKE seat" "Harbour" "555-0002" day2 Stolen 2 (Some "seat.png") (Some "racing bike").

Definition sample_db : database :=
  mk_database [alice; bob] [blue_bike; red_wallet; bike_seat]
              [Comment.mk 1 "Is it still there?" day2 2 1] [].

(** Stand-ins for the wording of the libraries. *)
Definition sample_environment : environment :=
  mk_environment
    (Exn ArgumentError "mappers failed to configure")
    (fun err =>
       match err with
       | NotNull column => Exn IntegrityError ("NOT NULL constraint failed: " ++ column)%string
       | Unique column => Exn IntegrityError ("UNIQUE constraint failed: " ++ column)%string
       | Unbindable => Exn InterfaceError "unsupported type"
       | IntegerOverflow => Exn OverflowError "int too large"
       | NotBoolean => Exn StatementError "not a boolean value"
       end)
    (Exn InvalidRequestError "object is attached to another session")
    (fun _ => None)
    (fun _ => None)
    lower.

Definition sample_world : world :=
  mk_world sample_db [] [] day2 1714645800 models_py sample_environment.

(** The same world in a process whose mappers configure: the declarations
    of [models_py] without the two relationships that [Review] declares. *)
Definition consistent_models : list relationship :=
  [mk_relationship "User" "posts" "Post" (Some "user");
   mk_relationship "User" "comments" "Comment" (Some "user");
   mk_relationship "User" "written_reviews" "Review" (Some "reviewer");
   mk_relationship "User" "received_reviews" "Review" (Some "reviewed_user");
   mk_relationship "Post" "comments" "Comment" (Some "post")].

Definition configured_world : world :=
  mk_world sample_db [] [] day2 1714645800 consistent_models sample_environment.

(** The sample world on a machine whose mail server refuses the
    connection. *)
Definition smtp_refused : exn := Exn SMTPException "authentication failed".

Definition configured_world_without_mail : world :=
  mk_world sample_db [] [] day2 1714645800 consistent_models
           (mk_environment
              (mapper_failure sample_environment)
              (database_failure sample_environment)
              (session_failure sample_environment)
              (save_failure sample_environment)
              (fun _ => Some smtp_refused)
              (unicode_lower sample_environment)).

Definition plain_name (s : string) : string := s.

(** ** The specification's vocabulary *)

(** The three required fields of a post with the message that names each. *)
Definition required_fields : list (string * string) :=
  [("description", "Description is required.");
   ("location", "Location is required.");
   ("contact_info", "Contact information is required.")].

(** A field is missing when it is absent from the form or empty. *)
Definition missing (data : multidict) (field : string) : bool :=
  negb (truthy_str (form_get data field)).

Definition messages_for_missing (data : multidict) : list string :=
  map snd (filter (fun fm => missing data (fst fm)) required_fields).

(** [s] begins with [sub]. *)
Fixpoint starts_with (sub s : string) : bool :=
  match sub with
  | EmptyString => true
  | String a sub' =>
      match s with
      | EmptyString => false
      | String b s' => (a =? b)%char && starts_with sub' s'
      end
  end.

(** [sub] occurs in [s] as a run of consecutive characters. *)
Fixpoint is_substring (sub s : string) : bool :=
  starts_with sub s
  || match s with
     | EmptyString => false
     | String _ s' => is_substring sub s'
     end.

(** The characters [LIKE] reads as wildcards. *)
Definition is_wildcard (c : ascii) : bool := (c =? "%")%char || (c =? "_")%char.

Fixpoint wildcard_free (s : string) : bool :=
  match s with
  | EmptyString => true
  | String c s' => negb (is_wildcard c) && wildcard_free s'
  end.

(** A user row with this id exists. *)
Definition has_user (db : database) (uid : Z) : bool :=
  match users_get db uid with
  | Some _ => true
  | None => false
  end.

(** The foreign keys of [posts] and [comments] into [users]. *)
Definition posts_have_owners (db : database) : bool :=
  forallb (fun p => has_user db (Post.user_id p)) (posts db).

Definition comments_have_authors (db : database) : bool :=
  forallb (fun c => has_user db (Comment.user_id c)) (comments db).

Definition referential_integrity (db : database) : bool :=
  posts_have_owners db && comments_have_authors db.

(** A stand-in for [jwt.decode] in examples: one token verifies, one has
    expired, one carries a bad signature, anything else is no token. *)
Definition sample_decode (token key : string) : exn + json :=
  if (token =? "valid-for-alice")%string
  then inr (JDict [("reset_password", JInt 1); ("exp", JInt 1714646400)])
  else if (token =? "old-for-alice")%string
  then inl (Exn ExpiredSignatureError "Signature has expired")
  else if (token =? "forged-for-alice")%string
  then inl (Exn InvalidSignatureError "Signature verification failed")
  else inl (Exn DecodeError "Not enough segments").

Definition sample_encode (payload : json) (key : string) : string := "valid-for-alice".

Definition sample_hash (password : string) : string := ("pbkdf2:" ++ password)%string.

Definition sample_check (pwhash password : string) : bool :=
  (pwhash =? sample_hash password)%string.

Definition sample_access (identity : Z) : string :=
  ("access-" ++ string_of_Z identity)%string.

Definition sample_refresh (identity : Z) : string :=
  ("refresh-" ++ string_of_Z identity)%string.


(** Weakest precondition of a handler: [post] holds of its outcome and of
    the world it leaves. *)
Definition wp {A : Type} (c : M A) (post : exn + A -> world -> Prop) (w : world) : Prop :=
  post (fst (c w)) (snd (c w)).


(** The one answer of the reset-request endpoint. *)
Definition reset_requested : response :=
  message "If your email exists, you will receive a password reset email shortly." 200.

(** A well-formed account-creation body. *)
Definition carol_request : json :=
  JDict [("email", JStr "carol@example.com"); ("password", JStr "s3cret");
         ("username", JStr "carol")].

Definition name_error : exn :=
  Exn NameError "name 'generate_password_hash' is not defined".

(** The 500 answer of a view whose [try] caught the failure of the
    mappers. *)
Definition mapper_error_response (w : world) : response :=
  message ("An error occurred: " ++ str_exn (mapper_failure (w_env w)))%string 500.

(** The outcome of a view that lets the failure of the mappers escape. *)
Definition mapper_failure_raised (w : world) : (exn + response) * world :=
  (inl (mapper_failure (w_env w)), w).


(** The 500 answer of a view whose [try] caught the exception [e]. *)
Definition error_response (e : exn) : response :=
  message ("An error occurred: " ++ str_exn e)%string 500.

(** A parsed body from which the email or the password is absent or
    empty: a falsy value ([None], an empty dict, ...), or a dict in which
    one of the two is missing or falsy. *)
Definition lacks_email_or_password (data : json) : bool :=
  negb (truthy data)
  || match data with
     | JDict kv =>
         negb (truthy (match assoc "email" kv with Some v => v | None => JNull end))
         || negb (truthy (match assoc "password" kv with Some v => v | None => JNull end))
     | _ => false
     end.


(** The comment an accepted request stores. *)
Definition new_comment (db : database) (text : string) (now : datetime)
           (author post_id : Z) : Comment.t :=
  Comment.mk (next_id (map Comment.id (comments db))) text now author post_id.

(** * Properties *)

(** ** Running handlers *)

Lemma bind_ret {A B : Type} (a : A) (k : A -> M B) (w : world) :
  bind (ret a) k w = k a w.
Proof. reflexivity. Qed.

Lemma bind_raise {A B : Type} (e : exn) (k : A -> M B) (w : world) :
  bind (raise e) k w = (inl e, w).
Proof. reflexivity. Qed.

Lemma bind_lift_inr {A B : Type} (a : A) (k : A -> M B) (w : world) :
  bind (lift (inr a)) k w = k a w.
Proof. reflexivity. Qed.

Lemma bind_get_db {B : Type} (k : database -> M B) (w : world) :
  bind get_db k w = k (w_db w) w.
Proof. reflexivity. Qed.

Lemma bind_get_env {B : Type} (k : environment -> M B) (w : world) :
  bind get_env k w = k (w_env w) w.
Proof. reflexivity. Qed.

Lemma bind_returns {A B : Type} (c : M A) (k : A -> M B) (w w' : world) (a : A) :
  c w = (inr a, w') -> bind c k w = k a w'.
Proof. intros H. unfold bind. now rewrite H. Qed.

Lemma bind_raises {A B : Type} (c : M A) (k : A -> M B) (w w' : world) (e : exn) :
  c w = (inl e, w') -> bind c k w = (inl e, w').
Proof. intros H. unfold bind. now rewrite H. Qed.

Lemma try_except_returns {A : Type} (body : M A) (h : exn -> M A) (w w' : world) (a : A) :
  body w = (inr a, w') -> try_except body h w = (inr a, w').
Proof. intros H. unfold try_except. now rewrite H. Qed.

Lemma try_except_catches {A : Type} (body : M A) (h : exn -> M A) (w w' : world) (e : exn) :
  body w = (inl e, w') -> try_except body h w = h e w'.
Proof. intros H. unfold try_except. now rewrite H. Qed.

Ltac run :=
  unfold try_except, bind, ret, raise, lift, get_db, utcnow, time; cbn.

(** ** The mappers of [app/models.py]

    [User.written_reviews] asks for a backref [reviewer] on [Review], which
    declares a relationship of that name itself (and so on for the three
    other names): the mappers do not configure, and every query raises. *)

Lemma models_py_conflict : mappers_conflict models_py = true.
Proof. reflexivity. Qed.

Lemma consistent_models_configure : mappers_conflict consistent_models = false.
Proof. reflexivity. Qed.

Lemma sample_world_as_shipped : as_shipped sample_world.
Proof. reflexivity. Qed.

Lemma as_shipped_conflict (w : world) :
  as_shipped w -> mappers_conflict (w_registry w) = true.
Proof. unfold as_shipped. intros ->. apply models_py_conflict. Qed.

Lemma Cls_query_as_shipped (w : world) :
  as_shipped w -> Cls_query w = (inl (mapper_failure (w_env w)), w).
Proof.
  intros H. unfold Cls_query, configure_mappers.
  now rewrite (as_shipped_conflict w H).
Qed.

Lemma Cls_query_configured (w : world) :
  mappers_conflict (w_registry w) = false -> Cls_query w = (inr tt, w).
Proof. intros H. unfold Cls_query, configure_mappers. now rewrite H. Qed.

Lemma User_query_get_as_shipped (uid : Z) (w : world) :
  as_shipped w -> User_query_get uid w = (inl (mapper_failure (w_env w)), w).
Proof.
  intros H. unfold User_query_get. now apply bind_raises, Cls_query_as_shipped.
Qed.

Lemma Post_query_get_as_shipped (ty : post_type) (pid : Z) (w : world) :
  as_shipped w -> Post_query_get ty pid w = (inl (mapper_failure (w_env w)), w).
Proof.
  intros H. unfold Post_query_get. now apply bind_raises, Cls_query_as_shipped.
Qed.

Lemma User_query_get_configured (uid : Z) (w : world) :
  mappers_conflict (w_registry w) = false ->
  User_query_get uid w = (inr (users_get (w_db w) uid), w).
Proof.
  intros H. unfold User_query_get.
  rewrite (bind_returns _ _ _ _ _ (Cls_query_configured w H)). reflexivity.
Qed.

Lemma Post_query_get_configured (ty : post_type) (pid : Z) (w : world) :
  mappers_conflict (w_registry w) = false ->
  Post_query_get ty pid w = (inr (posts_get ty (w_db w) pid), w).
Proof.
  intros H. unfold Post_query_get.
  rewrite (bind_returns _ _ _ _ _ (Cls_query_configured w H)). reflexivity.
Qed.

(** Either way a query leaves the world as it was. *)
Lemma Post_query_get_outcome (ty : post_type) (pid : Z) (w : world) :
  (mappers_conflict (w_registry w) = true
   /\ Post_query_get ty pid w = (inl (mapper_failure (w_env w)), w))
  \/ (mappers_conflict (w_registry w) = false
      /\ Post_query_get ty pid w = (inr (posts_get ty (w_db w) pid), w)).
Proof.
  destruct (mappers_conflict (w_registry w)) eqn:Hc.
  - left. split; [reflexivity|].
    unfold Post_query_get, bind, Cls_query, configure_mappers. now rewrite Hc.
  - right. split; [reflexivity|]. now apply Post_query_get_configured.
Qed.


Lemma not_as_shipped (w : world) :
  mappers_conflict (w_registry w) = false -> ~ as_shipped w.
Proof. intros Hc H. apply as_shipped_conflict in H. congruence. Qed.

(** ** Validation of new posts (C4) *)

Arguments validate_post_data : simpl never.
Arguments messages_for_missing : simpl never.

Lemma validate_post_data_spec (data : multidict) :
  validate_post_data data = messages_for_missing data.
Proof.
  unfold validate_post_data, messages_for_missing, missing, required_fields.
  cbn.
  destruct (truthy_str (form_get data "description"));
    destruct (truthy_str (form_get data "location"));
    destruct (truthy_str (form_get data "contact_info")); reflexivity.
Qed.

Lemma messages_name_every_missing_field (data : multidict) (field msg : string) :
  In (field, msg) required_fields ->
  missing data field = true ->
  In msg (messages_for_missing data).
Proof.
  intros Hin Hmiss. unfold messages_for_missing.
  apply in_map_iff. exists (field, msg). split; [reflexivity|].
  apply filter_In. split; assumption.
Qed.

Lemma messages_nonempty (data : multidict) (field msg : string) :
  In (field, msg) required_fields ->
  missing data field = true ->
  messages_for_missing data <> [].
Proof.
  intros Hin Hmiss Hnil.
  pose proof (messages_name_every_missing_field data field msg Hin Hmiss) as H.
  rewrite Hnil in H. exact H.
Qed.

(** C4. For each of the four post types, creating a post while at least one
    of description, location and contact_info is empty or absent answers
    400 with an [errors] list that holds the message of every missing field
    (and of no other), and leaves the database, the upload folder and the
    outbox as they were. *)
Theorem create_post_reports_every_missing_field
        (sf : string -> string) (uf : string) (ty : post_type) (identity : Z)
        (data : multidict) (image : option FileStorage) (w : world)
        (field msg : string) :
  In (field, msg) required_fields ->
  missing data field = true ->
  create_post sf uf ty identity data image w
  = (inr (JDict [("errors", JList (map JStr (messages_for_missing data)))], 400), w)
  /\ (forall f m, In (f, m) required_fields ->
                  (missing data f = true <-> In m (messages_for_missing data))).
Proof.
  intros Hin Hmiss. split.
  - unfold create_post. apply try_except_returns.
    rewrite validate_post_data_spec.
    pose proof (messages_nonempty data field msg Hin Hmiss) as Hne.
    destruct (messages_for_missing data) as [|m ms]; [congruence|].
    reflexivity.
  - intros f m Hf. split.
    + apply messages_name_every_missing_field; assumption.
    + unfold messages_for_missing. intros H.
      apply in_map_iff in H. destruct H as [[f' m'] [Hm H]].
      apply filter_In in H. destruct H as [Hreq Hmis]. cbn in *. subst m'.
      unfold required_fields in Hf, Hreq. cbn in Hf, Hreq.
      destruct Hf as [Hf|[Hf|[Hf|[]]]]; inversion Hf; subst;
        destruct Hreq as [Hr|[Hr|[Hr|[]]]]; inversion Hr; subst;
          first [assumption | discriminate].
Qed.

Lemma create_post_reports_every_missing_field_witness :
  create_post plain_name "uploads" Lost 2 [("location", "Main St"); ("contact_info", "")]
              None sample_world
  = (inr (JDict [("errors", JList [JStr "Description is required.";
                                   JStr "Contact information is required."])], 400),
     sample_world).
Proof.
  exact (proj1 (create_post_reports_every_missing_field
                  plain_name "uploads" Lost 2
                  [("location", "Main St"); ("contact_info", "")] None sample_world
                  "description" "Description is required."
                  (or_introl eq_refl) eq_refl)).
Defined.

(** ** Reset tokens (C2) *)

Lemma verify_reset_token_decode_error
      (key : string) (jwt_decode : string -> string -> exn + json)
      (token : string) (e : exn) (w : world) :
  jwt_decode token key = inl e ->
  verify_reset_token key jwt_decode token w = (inr None, w).
Proof.
  intros Hdec. unfold verify_reset_token. run. rewrite Hdec. reflexivity.
Qed.

(** A payload that verifies but lacks the [reset_password] entry is
    swallowed by the same [except]. *)
Lemma verify_reset_token_foreign_payload
      (key : string) (jwt_decode : string -> string -> exn + json)
      (token : string) (payload : json) (e : exn) (w : world) :
  jwt_decode token key = inr payload ->
  json_getitem payload "reset_password" = inl e ->
  verify_reset_token key jwt_decode token w = (inr None, w).
Proof.
  intros Hdec Hkey. unfold verify_reset_token. run. rewrite Hdec. cbn.
  rewrite Hkey. reflexivity.
Qed.

Lemma reset_password_without_user
      (hash : string -> string) (key : string)
      (jwt_decode : string -> string -> exn + json)
      (token : string) (data : json) (w : world) :
  verify_reset_token key jwt_decode token w = (inr None, w) ->
  reset_password hash key jwt_decode token data w
  = (inr (message "Invalid or expired token" 400), w).
Proof.
  intros Hver. unfold reset_password, bind. rewrite Hver. reflexivity.
Qed.

(** C2. Whatever exception decoding a reset token raises (an expired
    token, a signature that does not verify, a string that is no token),
    [verify_reset_token] returns no user and [reset_password] answers 400
    "Invalid or expired token" without changing anything; the answer is the
    same for any other failing token and any other body, so it does not
    tell the failures apart. *)
Theorem reset_token_failures_are_indistinguishable
        (hash : string -> string) (key : string)
        (jwt_decode : string -> string -> exn + json)
        (token : string) (e : exn) (data : json) (w : world) :
  jwt_decode token key = inl e ->
  verify_reset_token key jwt_decode token w = (inr None, w)
  /\ reset_password hash key jwt_decode token data w
     = (inr (message "Invalid or expired token" 400), w)
  /\ (forall token' e' data',
         jwt_decode token' key = inl e' ->
         reset_password hash key jwt_decode token' data' w
         = reset_password hash key jwt_decode token data w).
Proof.
  intros Hdec.
  pose proof (verify_reset_token_decode_error key jwt_decode token e w Hdec) as Hver.
  split; [exact Hver|]. split.
  - now apply reset_password_without_user.
  - intros token' e' data' Hdec'.
    rewrite (reset_password_without_user hash key jwt_decode token data w Hver).
    apply reset_password_without_user.
    now apply verify_reset_token_decode_error with (e := e').
Qed.

Lemma reset_token_failures_are_indistinguishable_witness :
  verify_reset_token "secret" sample_decode "old-for-alice" sample_world
  = (inr None, sample_world)
  /\ reset_password sample_hash "secret" sample_decode "old-for-alice"
                    (JDict [("password", JStr "new")]) sample_world
     = (inr (message "Invalid or expired token" 400), sample_world)
  /\ reset_password sample_hash "secret" sample_decode "forged-for-alice" JNull sample_world
     = reset_password sample_hash "secret" sample_decode "old-for-alice"
                      (JDict [("password", JStr "new")]) sample_world.
Proof.
  destruct (reset_token_failures_are_indistinguishable
              sample_hash "secret" sample_decode "old-for-alice"
              (Exn ExpiredSignatureError "Signature has expired")
              (JDict [("password", JStr "new")]) sample_world eq_refl)
    as [Hver [Hreset Hsame]].
  split; [exact Hver|]. split; [exact Hreset|].
  exact (Hsame "forged-for-alice"
               (Exn InvalidSignatureError "Signature verification failed")
               JNull eq_refl).
Defined.

(** ** Updating and deleting a post (C5, C1) *)


(** C5, as the shipped code answers it.  In a process that has imported
    [app/models.py], the lookup with which [update] and [delete] begin
    raises the failure of the mappers inside the view's [try]: for every
    post id, requester, form and upload, both views answer 500 with that
    failure's text, before the existence of the post or its owner is
    looked at, and nothing changes.  The 404 and the 403 of the claim are
    not reached. *)
Theorem update_and_delete_fail_at_the_lookup
        (sf : string -> string) (uf : string) (ty : post_type)
        (post_id identity : Z) (data : multidict) (image : option FileStorage)
        (w : world) :
  as_shipped w ->
  update_post sf uf ty post_id identity data image w = (inr (mapper_error_response w), w)
  /\ delete_post ty post_id identity w = (inr (mapper_error_response w), w).
Proof.
  intros H. unfold update_post, delete_post.
  split; (erewrite try_except_catches;
          [reflexivity | apply bind_raises, Post_query_get_as_shipped; exact H]).
Qed.

(** The administrator Alice on Bob's lost post, and on an id that names no
    lost post. *)
Lemma update_and_delete_fail_at_the_lookup_witness :
  as_shipped sample_world
  /\ update_post plain_name "uploads" Lost 7 1 [("location", "Pier")] None sample_world
     = (inr (mapper_error_response sample_world), sample_world)
  /\ delete_post Lost 2 1 sample_world
     = (inr (mapper_error_response sample_world), sample_world).
Proof.
  split; [reflexivity|]. split.
  - exact (proj1 (update_and_delete_fail_at_the_lookup
                    plain_name "uploads" Lost 7 1 [("location", "Pier")] None
                    sample_world eq_refl)).
  - exact (proj2 (update_and_delete_fail_at_the_lookup
                    plain_name "uploads" Lost 2 1 [] None sample_world eq_refl)).
Defined.

(** Where the mappers configure, the two views do what C5 says: 404 for an
    id the variant's lookup does not find, 403 for a requester who is not
    the owner, whatever the requester's admin flag. *)
Lemma update_delete_gated_where_mappers_configure
      (sf : string -> string) (uf : string) (ty : post_type)
      (post_id identity : Z) (data : multidict) (image : option FileStorage)
      (w : world) :
  mappers_conflict (w_registry w) = false ->
  (posts_get ty (w_db w) post_id = None ->
   update_post sf uf ty post_id identity data image w
   = (inr (message "Post not found" 404), w)
   /\ delete_post ty post_id identity w = (inr (message "Post not found" 404), w))
  /\
  (forall post,
      posts_get ty (w_db w) post_id = Some post ->
      Post.user_id post <> identity ->
      update_post sf uf ty post_id identity data image w
      = (inr (message "Unauthorized to update this post" 403), w)
      /\ delete_post ty post_id identity w
         = (inr (message "Unauthorized to delete this post" 403), w)).
Proof.
  intros Hc.
  pose proof (Post_query_get_configured ty post_id w Hc) as Hq.
  split.
  - intros Hnone. rewrite Hnone in Hq. unfold update_post, delete_post.
    split; apply try_except_returns; rewrite (bind_returns _ _ _ _ _ Hq); reflexivity.
  - intros post Hsome Hneq. apply Z.eqb_neq in Hneq. rewrite Hsome in Hq.
    unfold update_post, delete_post.
    split; apply try_except_returns; rewrite (bind_returns _ _ _ _ _ Hq); cbv zeta;
      rewrite Hneq; reflexivity.
Qed.

(** There the owner's update is refused unless all three text fields
    arrive non-empty: [validate_post_data] runs before the fall-backs of
    [data.get(k, post.k)]. *)
Lemma update_by_owner_needs_every_field
      (sf : string -> string) (uf : string) (ty : post_type)
      (post_id identity : Z) (data : multidict) (image : option FileStorage)
      (w : world) (post : Post.t) (field msg : string) :
  mappers_conflict (w_registry w) = false ->
  posts_get ty (w_db w) post_id = Some post ->
  Post.user_id post = identity ->
  In (field, msg) required_fields ->
  missing data field = true ->
  update_post sf uf ty post_id identity data image w
  = (inr (errors_response (messages_for_missing data)), w).
Proof.
  intros Hc Hsome Hown Hin Hmiss.
  pose proof (Post_query_get_configured ty post_id w Hc) as Hq. rewrite Hsome in Hq.
  unfold update_post. apply try_except_returns.
  rewrite (bind_returns _ _ _ _ _ Hq). cbv zeta.
  apply Z.eqb_eq in Hown. rewrite Hown. cbn [negb].
  rewrite validate_post_data_spec.
  pose proof (messages_nonempty data field msg Hin Hmiss) as Hne.
  destruct (messages_for_missing data); [congruence|reflexivity].
Qed.

(** C1, where the code departs from it.  An update that leaves out (or
    sends empty) one of description, location and contact_info is never
    accepted, whoever sends it and whatever the post: the view answers an
    error and stores nothing.  In a process that has imported
    [app/models.py] the answer is the 500 of the failed lookup. *)
Theorem update_that_omits_a_field_is_never_accepted
        (sf : string -> string) (uf : string) (ty : post_type)
        (post_id identity : Z) (data : multidict) (image : option FileStorage)
        (w : world) (field msg : string) :
  In (field, msg) required_fields ->
  missing data field = true ->
  exists resp,
    update_post sf uf ty post_id identity data image w = (inr resp, w)
    /\ snd resp <> 200
    /\ (as_shipped w -> resp = mapper_error_response w).
Proof.
  intros Hin Hmiss.
  destruct (Post_query_get_outcome ty post_id w) as [[Hc Hq]|[Hc Hq]].
  - exists (mapper_error_response w). split; [|split].
    + unfold update_post. erewrite try_except_catches; [reflexivity|].
      apply bind_raises. exact Hq.
    + cbn. lia.
    + reflexivity.
  - pose proof (not_as_shipped w Hc) as Hns.
    destruct (posts_get ty (w_db w) post_id) as [post|] eqn:Hp.
    + destruct (Z.eq_dec (Post.user_id post) identity) as [Hown|Hown].
      * exists (errors_response (messages_for_missing data)). split; [|split].
        -- now apply update_by_owner_needs_every_field with (post := post) (field := field)
                                                            (msg := msg).
        -- cbn. lia.
        -- intros H. contradiction.
      * exists (message "Unauthorized to update this post" 403). split; [|split].
        -- now apply (proj2 (update_delete_gated_where_mappers_configure
                               sf uf ty post_id identity data image w Hc) post).
        -- cbn. lia.
        -- intros H. contradiction.
    + exists (message "Post not found" 404). split; [|split].
      * now apply (proj1 (update_delete_gated_where_mappers_configure
                            sf uf ty post_id identity data image w Hc)).
      * cbn. lia.
      * intros H. contradiction.
Qed.

(** Bob owns the lost post 2 and sends only a new location. *)
Lemma update_that_omits_a_field_is_never_accepted_witness :
  exists resp,
    lost.update_lost_post plain_name "uploads" 2 2 [("location", "Pier 7")] None sample_world
    = (inr resp, sample_world)
    /\ snd resp <> 200
    /\ (as_shipped sample_world -> resp = mapper_error_response sample_world).
Proof.
  exact (update_that_omits_a_field_is_never_accepted
           plain_name "uploads" Lost 2 2 [("location", "Pier 7")] None sample_world
           "description" "Description is required." (or_introl eq_refl) eq_refl).
Defined.

(** The same request where the mappers configure: the two other fields are
    reported as required, and the post keeps its old location too. *)
Example update_only_location_where_mappers_configure :
  lost.update_lost_post plain_name "uploads" 2 2 [("location", "Pier 7")] None
                        configured_world
  = (inr (JDict [("errors", JList [JStr "Description is required.";
                                   JStr "Contact information is required."])], 400),
     configured_world).
Proof. reflexivity. Qed.

(** ** The admin views (C6, C3) *)

Lemma is_admin_as_shipped (caller : Z) (w : world) :
  as_shipped w -> is_admin caller w = (inl (mapper_failure (w_env w)), w).
Proof.
  intros H. unfold is_admin. now apply bind_raises, User_query_get_as_shipped.
Qed.

Lemma is_admin_configured (caller : Z) (w : world) :
  mappers_conflict (w_registry w) = false ->
  is_admin caller w
  = (inr (match users_get (w_db w) caller with
          | Some user => User.is_admin user
          | None => Some false
          end), w).
Proof.
  intros Hc. unfold is_admin.
  rewrite (bind_returns _ _ _ _ _ (User_query_get_configured caller w Hc)). reflexivity.
Qed.

Lemma dispatch_raises (view : M response) (w w' : world) (e : exn) :
  view w = (inl e, w') -> dispatch view w = (InternalServerError e, w').
Proof. intros H. unfold dispatch. now rewrite H. Qed.

(** C6, as the shipped code answers it.  In a process that has imported
    [app/models.py], [is_admin] raises the failure of the mappers at its
    query, outside any [try]: each of the seven views of [admins.py] lets
    it escape, for administrators and for everybody else, so Flask answers
    500 and nothing changes.  The 403 of the claim is not reached. *)
Theorem admin_views_fail_at_the_admin_check
        (hash : string -> string) (caller user_id : Z) (data : json) (w : world) :
  as_shipped w ->
  admin_analytics caller w = mapper_failure_raised w
  /\ get_all_users caller w = mapper_failure_raised w
  /\ create_user hash caller data w = mapper_failure_raised w
  /\ update_user caller user_id data w = mapper_failure_raised w
  /\ delete_user caller user_id w = mapper_failure_raised w
  /\ get_user caller user_id w = mapper_failure_raised w
  /\ get_user_activity caller user_id w = mapper_failure_raised w
  /\ status_code (fst (dispatch (get_all_users caller) w)) = 500.
Proof.
  intros H. unfold mapper_failure_raised.
  pose proof (is_admin_as_shipped caller w H) as Hadmin.
  unfold admin_analytics, get_all_users, create_user, update_user, delete_user,
    get_user, get_user_activity.
  repeat split; try (apply bind_raises; exact Hadmin).
  erewrite dispatch_raises; [reflexivity|]. apply bind_raises; exact Hadmin.
Qed.

(** Bob, who is no administrator, and Alice, who is one. *)
Lemma admin_views_fail_at_the_admin_check_witness :
  as_shipped sample_world
  /\ get_all_users 2 sample_world = mapper_failure_raised sample_world
  /\ get_all_users 1 sample_world = mapper_failure_raised sample_world.
Proof.
  split; [reflexivity|]. split.
  - exact (proj1 (proj2 (admin_views_fail_at_the_admin_check
                           sample_hash 2 1 JNull sample_world eq_refl))).
  - exact (proj1 (proj2 (admin_views_fail_at_the_admin_check
                           sample_hash 1 1 JNull sample_world eq_refl))).
Defined.

(** Where the mappers configure, a caller who is unknown or whose flag is
    not set is refused by each of the seven views, and nothing changes. *)
Lemma admin_views_refuse_non_admins_where_mappers_configure
      (hash : string -> string) (caller user_id : Z) (data : json) (w : world) :
  mappers_conflict (w_registry w) = false ->
  match users_get (w_db w) caller with
  | Some user => truthy_flag (User.is_admin user) = false
  | None => True
  end ->
  admin_analytics caller w = (inr admin_access_required, w)
  /\ get_all_users caller w = (inr admin_access_required, w)
  /\ create_user hash caller data w = (inr admin_access_required, w)
  /\ update_user caller user_id data w = (inr admin_access_required, w)
  /\ delete_user caller user_id w = (inr admin_access_required, w)
  /\ get_user caller user_id w = (inr admin_access_required, w)
  /\ get_user_activity caller user_id w = (inr admin_access_required, w).
Proof.
  intros Hc Hflag.
  pose proof (is_admin_configured caller w Hc) as Hadmin.
  assert (Hno : truthy_flag (match users_get (w_db w) caller with
                             | Some user => User.is_admin user
                             | None => Some false
                             end) = false)
    by (destruct (users_get (w_db w) caller); [exact Hflag | reflexivity]).
  unfold admin_analytics, get_all_users, create_user, update_user, delete_user,
    get_user, get_user_activity.
  repeat split; rewrite (bind_returns _ _ _ _ _ Hadmin); cbv zeta; rewrite Hno; reflexivity.
Qed.

(** ** A small program logic for handlers *)

Section WeakestPreconditions.

Context {A : Type}.
Variable post : exn + A -> world -> Prop.
Variable w : world.

Lemma wp_ret (a : A) : post (inr a) w -> wp (ret a) post w.
Proof. exact (fun H => H). Qed.

Lemma wp_raise (e : exn) : post (inl e) w -> wp (raise e) post w.
Proof. exact (fun H => H). Qed.

Lemma wp_raise_from (failure : environment -> exn) :
  post (inl (failure (w_env w))) w -> wp (raise_from failure) post w.
Proof. exact (fun H => H). Qed.

Lemma wp_lift (r : exn + A) : post r w -> wp (lift r) post w.
Proof. destruct r; exact (fun H => H). Qed.

Lemma wp_execute (r : db_error + A) :
  match r with
  | inl err => post (inl (database_failure (w_env w) err)) w
  | inr a => post (inr a) w
  end ->
  wp (execute r) post w.
Proof. destruct r; exact (fun H => H). Qed.

Lemma wp_bind {B : Type} (c : M B) (k : B -> M A) :
  wp c (fun r w' => match r with
                    | inl e => post (inl e) w'
                    | inr b => wp (k b) post w'
                    end) w ->
  wp (bind c k) post w.
Proof.
  unfold wp, bind. destruct (c w) as [[e|b] w']; cbn; exact (fun H => H).
Qed.

Lemma wp_try_except (body : M A) (handler : exn -> M A) :
  wp body (fun r w' => match r with
                       | inl e => wp (handler e) post w'
                       | inr a => post (inr a) w'
                       end) w ->
  wp (try_except body handler) post w.
Proof.
  unfold wp, try_except. destruct (body w) as [[e|a] w']; cbn; exact (fun H => H).
Qed.

Lemma wp_load_global (globals : list string) (name : string) (value : A) :
  (forall r, post r w) -> wp (load_global globals name value) post w.
Proof.
  intros H. unfold wp, load_global. destruct (existsb _ globals); apply H.
Qed.

End WeakestPreconditions.

Lemma wp_get_db (post : exn + database -> world -> Prop) (w : world) :
  post (inr (w_db w)) w -> wp get_db post w.
Proof. exact (fun H => H). Qed.

Lemma wp_get_env (post : exn + environment -> world -> Prop) (w : world) :
  post (inr (w_env w)) w -> wp get_env post w.
Proof. exact (fun H => H). Qed.

Lemma wp_utcnow (post : exn + datetime -> world -> Prop) (w : world) :
  post (inr (w_now w)) w -> wp utcnow post w.
Proof. exact (fun H => H). Qed.

Lemma wp_Cls_query (post : exn + unit -> world -> Prop) (w : world) :
  post (inl (mapper_failure (w_env w))) w ->
  post (inr tt) w ->
  wp Cls_query post w.
Proof.
  intros Hfail Hok. unfold wp, Cls_query, configure_mappers.
  destruct (mappers_conflict (w_registry w)); assumption.
Qed.

Lemma wp_commit (pending : db_error + database) (post : exn + unit -> world -> Prop)
      (w : world) :
  match pending with
  | inl err => post (inl (database_failure (w_env w) err)) w
  | inr db' => post (inr tt) (set_db w db')
  end ->
  wp (commit pending) post w.
Proof. destruct pending; exact (fun H => H). Qed.

Lemma wp_image_save (image : FileStorage) (path : string)
      (post : exn + unit -> world -> Prop) (w : world) :
  (forall e, post (inl e) w) ->
  post (inr tt) (add_upload w path (stream image)) ->
  wp (image_save image path) post w.
Proof.
  intros Hfail Hok. unfold wp, image_save.
  destruct (save_failure (w_env w) path); [apply Hfail | exact Hok].
Qed.

Lemma wp_mail_send (msg : Message) (post : exn + unit -> world -> Prop) (w : world) :
  (forall e, post (inl e) w) ->
  post (inr tt) (add_mail w msg) ->
  wp (mail_send msg) post w.
Proof.
  intros Hfail Hok. unfold wp, mail_send.
  destruct (smtp_failure (w_env w) msg); [apply Hfail | exact Hok].
Qed.

Ltac wp_step :=
  lazymatch goal with
  | |- wp (bind _ _) _ _ => apply wp_bind
  | |- wp (try_except _ _) _ _ => apply wp_try_except
  | |- wp (ret _) _ _ => apply wp_ret
  | |- wp (raise _) _ _ => apply wp_raise
  | |- wp (raise_from _) _ _ => apply wp_raise_from
  | |- wp get_db _ _ => apply wp_get_db
  | |- wp get_env _ _ => apply wp_get_env
  | |- wp utcnow _ _ => apply wp_utcnow
  | |- wp Cls_query _ _ => apply wp_Cls_query
  | |- wp (User_query_get _) _ _ => unfold User_query_get
  | |- wp (Post_query_get _ _) _ _ => unfold Post_query_get
  | |- wp (is_admin _) _ _ => unfold is_admin
  | |- wp (commit _) _ _ => apply wp_commit
  | |- wp (commit_loaded _ _) _ _ =>
      unfold commit_loaded, post_module_db, users_db, admins_db
  | |- wp (session_delete _) _ _ =>
      unfold session_delete, post_module_db, users_db, admins_db
  | |- wp (save_image _ _ _) _ _ => unfold save_image
  | |- wp (image_save _ _) _ _ => apply wp_image_save; [intros ?|]
  | |- wp (mail_send _) _ _ => apply wp_mail_send; [intros ?|]
  | |- wp (lift _) _ _ => apply wp_lift
  | |- wp (execute _) _ _ => apply wp_execute
  | |- wp (load_global _ _ _) _ _ => apply wp_load_global; intros [?|?]
  end.

Ltac wp_case :=
  match goal with
  | |- wp (match ?x with _ => _ end) _ _ => destruct x eqn:?
  | |- wp (if ?b then _ else _) _ _ => destruct b eqn:?
  | |- match ?x with _ => _ end => destruct x eqn:?
  end.


(** [admins.py] does not import [generate_password_hash]: evaluating the
    name raises. *)
Lemma load_generate_password_hash_in_admins (hash : string -> string) :
  load_global admins_globals "generate_password_hash" hash = raise name_error.
Proof. reflexivity. Qed.

Ltac wp_admins_hash :=
  lazymatch goal with
  | |- wp (load_global admins_globals "generate_password_hash" ?h) _ _ =>
      rewrite (load_generate_password_hash_in_admins h); apply wp_raise
  end.

(** C3, where the code departs from it.  [create_user] never creates an
    account: whoever calls it with whatever body, the world is left as it
    was, and a response, if the view returns one, is a refusal (403 or 400),
    never the 201 of the claim.  In a process that has imported
    [app/models.py] the view returns nothing: the failure of the mappers
    escapes from [is_admin], and Flask answers 500. *)
Theorem create_user_never_creates_an_account
        (hash : string -> string) (caller : Z) (data : json) (w : world) :
  snd (create_user hash caller data w) = w
  /\ (forall resp, fst (create_user hash caller data w) = inr resp ->
                   snd resp = 403 \/ snd resp = 400)
  /\ (as_shipped w ->
      create_user hash caller data w = mapper_failure_raised w
      /\ status_code (fst (dispatch (create_user hash caller data) w)) = 500).
Proof.
  split; [|split].
  - change (wp (create_user hash caller data) (fun _ w' => w' = w) w).
    unfold create_user.
    repeat (cbv beta zeta; first [wp_admins_hash | wp_step | wp_case]); reflexivity.
  - change (wp (create_user hash caller data)
               (fun r _ => forall resp, r = inr resp -> snd resp = 403 \/ snd resp = 400) w).
    unfold create_user.
    repeat (cbv beta zeta; first [wp_admins_hash | wp_step | wp_case]);
      intros resp Hresp; try discriminate Hresp;
      inversion Hresp; subst resp; cbn; lia.
  - intros H.
    assert (Hfail : create_user hash caller data w = mapper_failure_raised w)
      by (unfold create_user; apply bind_raises; now apply is_admin_as_shipped).
    split; [exact Hfail|].
    erewrite dispatch_raises; [reflexivity | exact Hfail].
Qed.

(** The administrator Alice creates an account for a new address. *)
Lemma create_user_never_creates_an_account_witness :
  as_shipped sample_world
  /\ create_user sample_hash 1 carol_request sample_world = mapper_failure_raised sample_world
  /\ status_code (fst (dispatch (create_user sample_hash 1 carol_request) sample_world)) = 500.
Proof.
  split; [reflexivity|].
  exact (proj2 (proj2 (create_user_never_creates_an_account
                         sample_hash 1 carol_request sample_world)) eq_refl).
Defined.

(** The same request where the mappers configure: the guards pass, the
    address is new, and the call of the unbound name raises [NameError]. *)
Example create_user_where_mappers_configure :
  create_user sample_hash 1 carol_request configured_world = (inl name_error, configured_world).
Proof. reflexivity. Qed.

(** [users.py] imports the name; there registration of the same address
    gets as far as the same query. *)
Example register_in_the_sample_world :
  register sample_hash carol_request sample_world = mapper_failure_raised sample_world.
Proof. reflexivity. Qed.

(** ** Comments (C7) *)

(** The content is checked before anything is looked up. *)
Lemma add_comment_requires_content
      (ty : post_type) (post_id identity : Z) (data content : json) (w : world) :
  json_get data "content" = inr content ->
  truthy content = false ->
  add_comment ty post_id identity data w
  = (inr (message "Comment content is required" 400), w).
Proof.
  intros Hcontent Hempty. unfold add_comment. apply try_except_returns.
  rewrite Hcontent, bind_lift_inr, Hempty. reflexivity.
Qed.

(** C7, as the shipped code answers it.  [add_comment] checks the content
    first: a body whose content is absent or empty is answered 400
    "Comment content is required", whatever the post id, and nothing is
    written.  With content, in a process that has imported
    [app/models.py], the view goes on to [User.query.get], which raises the
    failure of the mappers inside the [try]: the answer is 500, for a post
    that exists as for one that does not, and no comment is stored. *)
Theorem add_comment_checks_the_content_then_fails
        (ty : post_type) (post_id identity : Z) (data content : json) (w : world) :
  json_get data "content" = inr content ->
  (truthy content = false ->
   add_comment ty post_id identity data w
   = (inr (message "Comment content is required" 400), w))
  /\ (truthy content = true -> as_shipped w ->
      add_comment ty post_id identity data w = (inr (mapper_error_response w), w)).
Proof.
  intros Hcontent. split.
  - intros Hempty. now apply add_comment_requires_content with (content := content).
  - intros Hfull H. unfold add_comment. erewrite try_except_catches; [reflexivity|].
    rewrite Hcontent, bind_lift_inr, Hfull. cbv zeta. cbn [negb].
    now apply bind_raises, User_query_get_as_shipped.
Qed.

(** Bob on Alice's found post, without and with content. *)
Lemma add_comment_checks_the_content_then_fails_witness :
  found.add_comment 1 2 (JDict [("content", JStr "")]) sample_world
  = (inr (message "Comment content is required" 400), sample_world)
  /\ found.add_comment 1 2 (JDict [("content", JStr "I saw it yesterday")]) sample_world
     = (inr (mapper_error_response sample_world), sample_world).
Proof.
  split.
  - exact (proj1 (add_comment_checks_the_content_then_fails
                    Found 1 2 (JDict [("content", JStr "")]) (JStr "") sample_world eq_refl)
                 eq_refl).
  - exact (proj2 (add_comment_checks_the_content_then_fails
                    Found 1 2 (JDict [("content", JStr "I saw it yesterday")])
                    (JStr "I saw it yesterday") sample_world eq_refl)
                 eq_refl eq_refl).
Defined.

(** Where the mappers configure, the view does what C7 says of a request
    with content: 404 for an id the variant's lookup does not find, and
    otherwise, for a known author and a text, 201 with the comment stored
    under the author's id and the post's. *)
Lemma add_comment_where_mappers_configure
      (ty : post_type) (post_id identity : Z) (data content : json) (w : world) :
  mappers_conflict (w_registry w) = false ->
  json_get data "content" = inr content ->
  truthy content = true ->
  (posts_get ty (w_db w) post_id = None ->
   add_comment ty post_id identity data w = (inr (message "Post not found" 404), w))
  /\ (forall post author text,
         posts_get ty (w_db w) post_id = Some post ->
         users_get (w_db w) identity = Some author ->
         content = JStr text ->
         add_comment ty post_id identity data w
         = (inr (message "Comment added successfully" 201),
            set_db w (mk_database (users (w_db w)) (posts (w_db w))
                                  (comments (w_db w)
                                   ++ [new_comment (w_db w) text (w_now w)
                                                   (User.id author) (Post.id post)])
                                  (reviews (w_db w))))).
Proof.
  intros Hc Hcontent Hfull.
  pose proof (User_query_get_configured identity w Hc) as Hu.
  pose proof (Post_query_get_configured ty post_id w Hc) as Hq.
  unfold add_comment. split.
  - intros Hnone. rewrite Hnone in Hq. apply try_except_returns.
    rewrite Hcontent, bind_lift_inr, Hfull. cbv zeta. cbn [negb].
    rewrite (bind_returns _ _ _ _ _ Hu), (bind_returns _ _ _ _ _ Hq). reflexivity.
  - intros post author text Hsome Hauthor ->. rewrite Hsome in Hq. rewrite Hauthor in Hu.
    apply try_except_returns.
    rewrite Hcontent, bind_lift_inr, Hfull. cbv zeta. cbn [negb].
    rewrite (bind_returns _ _ _ _ _ Hu), (bind_returns _ _ _ _ _ Hq). reflexivity.
Qed.

(** ** Search (C8) *)

(** C8, as the shipped code answers it.  In a process that has imported
    [app/models.py], [Cls.query] raises the failure of the mappers inside
    the view's [try]: whatever the keyword and the location, a search
    answers 500 and lists no post. *)
Theorem search_fails_at_the_query
        (ty : post_type) (keyword location : option string) (w : world) :
  as_shipped w ->
  search_posts ty keyword location w = (inr (mapper_error_response w), w).
Proof.
  intros H. unfold search_posts. erewrite try_except_catches; [reflexivity|].
  rewrite bind_get_env. cbv zeta. now apply bind_raises, Cls_query_as_shipped.
Qed.

Lemma search_fails_at_the_query_witness :
  found.search_found_posts (Some "bike") None sample_world
  = (inr (mapper_error_response sample_world), sample_world).
Proof.
  exact (search_fails_at_the_query Found (Some "bike") None sample_world eq_refl).
Defined.

Lemma like_percent (s : string) : like "%" s = true.
Proof.
  cbn. induction s as [|c s IH]; cbn; [reflexivity|]. exact IH.
Qed.

(** A pattern without wildcards, followed by [%], tests for a prefix. *)
Lemma like_starts_with (kw s : string) :
  wildcard_free kw = true ->
  like (kw ++ "%") s = starts_with kw s.
Proof.
  revert s. induction kw as [|c kw IH]; intros s Hfree.
  - cbn [append starts_with]. apply like_percent.
  - cbn [wildcard_free] in Hfree. apply andb_true_iff in Hfree.
    destruct Hfree as [Hc Hfree]. unfold is_wildcard in Hc.
    apply negb_true_iff, orb_false_iff in Hc. destruct Hc as [Hpct Hund].
    cbn [append like starts_with]. rewrite Hpct, Hund.
    destruct s as [|d s]; [reflexivity|].
    cbn [orb]. now rewrite IH.
Qed.

(** Between two [%], such a pattern tests for containment: the filter of
    the search is the substring test of the claim as long as the keyword
    holds neither [%] nor [_]. *)
Lemma like_is_substring (kw s : string) :
  wildcard_free kw = true ->
  like ("%" ++ kw ++ "%") s = is_substring kw s.
Proof.
  intros Hfree. cbn [append like]. cbn [Ascii.eqb Bool.eqb].
  induction s as [|d s IH]; cbn [like_any is_substring];
    rewrite like_starts_with by assumption; [reflexivity|].
  now rewrite IH.
Qed.

(** The keyword is not escaped: [_] in it matches any character, so the
    filter keeps a description that does not contain it. *)
Example underscore_is_a_wildcard :
  ilike "Blue Bike" ("%" ++ "_" ++ "%") = true
  /\ is_substring (lower "_") (lower "Blue Bike") = false.
Proof. split; reflexivity. Qed.

(** The same search where the mappers configure. *)
Example search_underscore_where_mappers_configure :
  fst (found.search_found_posts (Some "_") None configured_world)
  = fst (found.get_all_found_posts configured_world).
Proof. reflexivity. Qed.

(** ** Isolation of the post types (C9) *)








(** Where the mappers configure, the answer to the id of another type's
    post is the 404. *)
Example other_type_where_mappers_configure :
  found.get_found_post 2 configured_world
  = (inr (message "Post not found" 404), configured_world)
  /\ found.get_comments 2 configured_world
     = (inr (message "Post not found" 404), configured_world)
  /\ found.add_comment 2 1 (JDict [("content", JStr "Mine!")]) configured_world
     = (inr (message "Post not found" 404), configured_world).
Proof. repeat split. Qed.

(** ** Requesting a reset (C10) *)

(** C10, as the shipped code answers it.  In a process that has imported
    [app/models.py], [User.query] raises the failure of the mappers before
    the body is looked at, and nothing in the view catches it: for every
    body, with a registered address, an unknown one or none, the exception
    escapes, Flask answers 500 and no mail is sent.  The 200 of the claim
    is not reached. *)
Theorem request_password_reset_fails_at_the_query
        (key : string) (mail_sender : option string) (jwt_encode : json -> string -> string)
        (url_root : string) (data : json) (w : world) :
  as_shipped w ->
  request_password_reset key mail_sender jwt_encode url_root data w
  = mapper_failure_raised w
  /\ status_code
       (fst (dispatch (request_password_reset key mail_sender jwt_encode url_root data) w))
     = 500.
Proof.
  intros H.
  assert (Hfail : request_password_reset key mail_sender jwt_encode url_root data w
                  = mapper_failure_raised w)
    by (unfold request_password_reset; now apply bind_raises, Cls_query_as_shipped).
  split; [exact Hfail|].
  erewrite dispatch_raises; [reflexivity | exact Hfail].
Qed.

(** Alice's address, which is registered, and one that is not. *)
Lemma request_password_reset_fails_at_the_query_witness :
  request_password_reset "secret" None sample_encode "https://amber.example/"
                         (JDict [("email", JStr "alice@example.com")]) sample_world
  = mapper_failure_raised sample_world
  /\ request_password_reset "secret" None sample_encode "https://amber.example/"
                            (JDict [("email", JStr "nobody@example.com")]) sample_world
     = mapper_failure_raised sample_world.
Proof.
  split.
  - exact (proj1 (request_password_reset_fails_at_the_query
                    "secret" None sample_encode "https://amber.example/"
                    (JDict [("email", JStr "alice@example.com")]) sample_world eq_refl)).
  - exact (proj1 (request_password_reset_fails_at_the_query
                    "secret" None sample_encode "https://amber.example/"
                    (JDict [("email", JStr "nobody@example.com")]) sample_world eq_refl)).
Defined.

(** Where the mappers configure, an unknown address is answered 200 and
    nothing is sent; for a registered one the answer depends on the mail
    server, for [mail.send] is called outside any [try]. *)
Lemma request_password_reset_where_mappers_configure
      (key : string) (mail_sender : option string) (jwt_encode : json -> string -> string)
      (url_root : string) (data : json) (address : string) (w : world) :
  mappers_conflict (w_registry w) = false ->
  json_getitem data "email" = inr (JStr address) ->
  (users_by_email (w_db w) address = None ->
   request_password_reset key mail_sender jwt_encode url_root data w
   = (inr reset_requested, w))
  /\ (forall user,
         users_by_email (w_db w) address = Some user ->
         (exists msg,
             (smtp_failure (w_env w) msg = None ->
              request_password_reset key mail_sender jwt_encode url_root data w
              = (inr reset_requested, add_mail w msg))
             /\ (forall e, smtp_failure (w_env w) msg = Some e ->
                           request_password_reset key mail_sender jwt_encode url_root data w
                           = (inl e, w)))).
Proof.
  intros Hc Hemail.
  unfold request_password_reset.
  rewrite (bind_returns _ _ _ _ _ (Cls_query_configured w Hc)).
  rewrite Hemail, bind_lift_inr, bind_get_db.
  unfold users_by_email_value. cbn [bind_text and_then].
  split.
  - intros Hnone. rewrite Hnone. reflexivity.
  - intros user Hsome. rewrite Hsome.
    eexists. split.
    + intros Hsent. unfold execute, send_reset_email, get_reset_token, mail_send, bind,
        ret, time. cbn. rewrite Hsent. reflexivity.
    + intros e Hrefused. unfold execute, send_reset_email, get_reset_token, mail_send, bind,
        ret, time. cbn. rewrite Hrefused. reflexivity.
Qed.

(** On a machine whose mail server refuses the connection the two kinds of
    address are told apart. *)
Example request_password_reset_without_mail_server :
  request_password_reset "secret" None sample_encode "https://amber.example/"
                         (JDict [("email", JStr "alice@example.com")])
                         configured_world_without_mail
  = (inl smtp_refused, configured_world_without_mail)
  /\ request_password_reset "secret" None sample_encode "https://amber.example/"
                            (JDict [("email", JStr "nobody@example.com")])
                            configured_world_without_mail
     = (inr reset_requested, configured_world_without_mail).
Proof. split; reflexivity. Qed.

(** ** Referential integrity is kept

    Posts have owners and comments have authors; every change a view
    commits keeps that. *)




(** The frame rule of the invariant: user ids survive, and each row of
    [posts] or [comments] is an old one or points at a user. *)
Lemma integrity_preserved (db db' : database) :
  (forall uid, has_user db uid = true -> has_user db' uid = true) ->
  (forall p, In p (posts db') ->
             In p (posts db) \/ has_user db' (Post.user_id p) = true) ->
  (forall c, In c (comments db') ->
             In c (comments db) \/ has_user db' (Comment.user_id c) = true) ->
  referential_integrity db = true -> referential_integrity db' = true.
Proof.
  unfold referential_integrity, posts_have_owners, comments_have_authors.
  intros Husers Hposts Hcomments Hri.
  apply andb_true_iff in Hri. destruct Hri as [Hp Hc].
  rewrite forallb_forall in Hp, Hc.
  apply andb_true_iff. split; apply forallb_forall.
  - intros p Hin. destruct (Hposts p Hin) as [Hold|Hnew]; [|exact Hnew].
    apply Husers. now apply Hp.
  - intros c Hin. destruct (Hcomments c Hin) as [Hold|Hnew]; [|exact Hnew].
    apply Husers. now apply Hc.
Qed.

Lemma integrity_owner (db : database) (p : Post.t) :
  referential_integrity db = true -> In p (posts db) ->
  has_user db (Post.user_id p) = true.
Proof.
  unfold referential_integrity, posts_have_owners. intros Hri Hin.
  apply andb_true_iff in Hri. destruct Hri as [Hp _].
  rewrite forallb_forall in Hp. now apply Hp.
Qed.

Ltac flush H :=
  repeat match type of H with
         | and_then ?r _ = inr _ =>
             let e := fresh "e" in
             destruct r as [e|?] eqn:?; cbn [and_then] in H; [discriminate H|]
         end.


Lemma assign_post_integrity
      (db db' : database) (post : Post.t) (d l c img vd : option string) :
  assign_post db post d l c img vd = inr db' ->
  In post (posts db) ->
  referential_integrity db = true -> referential_integrity db' = true.
Proof.
  unfold assign_post. intros H Hpost Hri. flush H. inversion H. subst db'. clear H.
  apply (integrity_preserved db); [| | | exact Hri]; cbn [users posts comments].
  - trivial.
  - intros p Hin. apply in_map_iff in Hin. destruct Hin as [q [Hq Hin]].
    destruct (Post.id q =? Post.id post); subst p.
    + right. change (has_user db (Post.user_id post) = true).
      now apply integrity_owner.
    + now left.
  - intros c0 Hin. now left.
Qed.

Lemma session_delete_post_integrity (db db' : database) (post : Post.t) :
  session_delete_post db post = inr db' ->
  referential_integrity db = true -> referential_integrity db' = true.
Proof.
  unfold session_delete_post. intros H Hri.
  destruct (comments_of_post db (Post.id post)); [|discriminate].
  inversion H. subst db'. clear H.
  apply (integrity_preserved db); [| | | exact Hri]; cbn [users posts comments].
  - trivial.
  - intros p Hin. apply filter_In in Hin. now left.
  - intros c Hin. now left.
Qed.







(** *** The views of the post modules *)





(** *** The views of the account modules *)






(** The invariant holds of an empty database. *)
Lemma empty_database_integrity :
  referential_integrity (mk_database [] [] [] []) = true.
Proof. reflexivity. Qed.

(** * Further properties of the views *)

(** ** Wildcards in a search *)











(** ** Primary keys of posts *)







(** ** Referential integrity, view by view *)





(** ** The other views in a process that has imported [app/models.py] *)

Lemma add_upload_as_shipped (w : world) (path content : string) :
  as_shipped w -> as_shipped (add_upload w path content).
Proof. exact (fun H => H). Qed.

(** A complete form is validated, the upload, if there is one, is written,
    and then [User.query.get] raises the failure of the mappers: the view
    answers 500 and stores no post, but the file stays where [image.save]
    put it.  Where the file cannot be written the view answers 500 with
    that error instead. *)
Theorem create_post_fails_after_the_upload
        (sf : string -> string) (uf : string) (ty : post_type) (identity : Z)
        (data : multidict) (image : option FileStorage) (w : world) :
  as_shipped w ->
  messages_for_missing data = [] ->
  (truthy_file image = None ->
   create_post sf uf ty identity data image w = (inr (mapper_error_response w), w))
  /\ (forall f,
         truthy_file image = Some f ->
         (save_failure (w_env w) (path_join uf (sf (filename f))) = None ->
          create_post sf uf ty identity data image w
          = (inr (mapper_error_response w),
             add_upload w (path_join uf (sf (filename f))) (stream f)))
         /\ (forall e,
                save_failure (w_env w) (path_join uf (sf (filename f))) = Some e ->
                create_post sf uf ty identity data image w = (inr (error_response e), w))).
Proof.
  intros H Hcomplete. unfold create_post.
  rewrite validate_post_data_spec, Hcomplete. split.
  - intros ->. erewrite try_except_catches; [reflexivity|].
    rewrite bind_ret. cbv zeta. now apply bind_raises, User_query_get_as_shipped.
  - intros f ->. unfold save_image. cbv zeta. split.
    + intros Hsaved.
      assert (Hsave : image_save f (path_join uf (sf (filename f))) w
                      = (inr tt, add_upload w (path_join uf (sf (filename f))) (stream f)))
        by (unfold image_save; now rewrite Hsaved).
      erewrite try_except_catches; [reflexivity|].
      unfold bind at 1. unfold bind at 1. unfold bind at 1. rewrite Hsave. cbn [ret].
      apply bind_raises.
      now apply (User_query_get_as_shipped identity
                   (add_upload w (path_join uf (sf (filename f))) (stream f))).
    + intros e Hrefused.
      assert (Hsave : image_save f (path_join uf (sf (filename f))) w = (inl e, w))
        by (unfold image_save; now rewrite Hrefused).
      erewrite try_except_catches; [reflexivity|].
      unfold bind at 1. unfold bind at 1. unfold bind at 1. rewrite Hsave. reflexivity.
Qed.

(** Bob reports a found scarf with a picture of it. *)
Lemma create_post_fails_after_the_upload_witness :
  found.create_found_post plain_name "uploads" 2
    [("description", "Grey scarf"); ("location", "Library"); ("contact_info", "555-0101")]
    (Some (mk_file "scarf.png" "PNG")) sample_world
  = (inr (mapper_error_response sample_world),
     add_upload sample_world "uploads/scarf.png" "PNG").
Proof.
  exact (proj1 (proj2 (create_post_fails_after_the_upload
                         plain_name "uploads" Found 2
                         [("description", "Grey scarf"); ("location", "Library");
                          ("contact_info", "555-0101")]
                         (Some (mk_file "scarf.png" "PNG")) sample_world eq_refl eq_refl)
                      (mk_file "scarf.png" "PNG") eq_refl)
               eq_refl).
Defined.

(** The three reading views of a post module begin with a query: each
    answers 500 with the failure of the mappers, whatever the database
    holds. *)
Theorem read_views_fail_at_the_query (ty : post_type) (post_id : Z) (w : world) :
  as_shipped w ->
  get_all_posts ty w = (inr (mapper_error_response w), w)
  /\ get_post ty post_id w = (inr (mapper_error_response w), w)
  /\ get_comments ty post_id w = (inr (mapper_error_response w), w).
Proof.
  intros H. unfold get_all_posts, get_post, get_comments.
  repeat split; (erewrite try_except_catches; [reflexivity|]; apply bind_raises).
  - now apply Cls_query_as_shipped.
  - now apply Post_query_get_as_shipped.
  - now apply Post_query_get_as_shipped.
Qed.

Lemma read_views_fail_at_the_query_witness :
  found.get_all_found_posts sample_world = (inr (mapper_error_response sample_world), sample_world)
  /\ found.get_found_post 1 sample_world
     = (inr (mapper_error_response sample_world), sample_world)
  /\ found.get_comments 1 sample_world
     = (inr (mapper_error_response sample_world), sample_world).
Proof.
  exact (read_views_fail_at_the_query Found 1 sample_world eq_refl).
Defined.

(** ** Registration and login *)

(** [register] and [login] answer 400 "Email and password are required"
    to a parsed body that is falsy, or a dict in which the email or the
    password is missing or falsy; the check comes before any query, and
    nothing is changed. *)
Theorem register_and_login_require_email_and_password
        (hash : string -> string) (check : string -> string -> bool)
        (access refresh : Z -> string) (data : json) (w : world) :
  lacks_email_or_password data = true ->
  register hash data w = (inr email_and_password_required, w)
  /\ users.login check access refresh data w = (inr email_and_password_required, w).
Proof.
  intros Hlacks. unfold lacks_email_or_password in Hlacks.
  unfold register, users.login.
  destruct (truthy data) eqn:Hd; cbn [negb orb] in Hlacks |- *;
    [|split; reflexivity].
  destruct data as [| b | n | s | d | l | kv]; try discriminate Hlacks.
  unfold json_get. rewrite !bind_lift_inr.
  destruct (truthy (match assoc "email" kv with Some v => v | None => JNull end));
    cbn [negb orb] in Hlacks |- *; [|split; reflexivity].
  rewrite !bind_lift_inr.
  destruct (truthy (match assoc "password" kv with Some v => v | None => JNull end));
    cbn [negb] in Hlacks |- *; [discriminate Hlacks | split; reflexivity].
Qed.

Lemma register_and_login_require_email_and_password_witness :
  register sample_hash (JDict [("email", JStr "carol@example.com")]) sample_world
  = (inr email_and_password_required, sample_world)
  /\ users.login sample_check sample_access sample_refresh
                 (JDict [("email", JStr "carol@example.com")]) sample_world
     = (inr email_and_password_required, sample_world).
Proof.
  exact (register_and_login_require_email_and_password
           sample_hash sample_check sample_access sample_refresh
           (JDict [("email", JStr "carol@example.com")]) sample_world eq_refl).
Defined.

(** With both present in a dict, and for the views that ask for neither,
    the first query raises the failure of the mappers and nothing in [users.py]
    catches it: registration, login, the current user's details, the reset
    of a password under a token that decodes, and the two admin views let
    the exception escape, and nothing is stored. *)
Theorem account_views_fail_at_the_query
        (hash : string -> string) (check : string -> string -> bool)
        (access refresh : Z -> string) (key : string)
        (jwt_decode : string -> string -> exn + json)
        (token : string) (payload user_id : json)
        (identity target : Z) (data body : json) (w : world) :
  as_shipped w ->
  lacks_email_or_password data = false ->
  (exists kv, data = JDict kv) ->
  jwt_decode token key = inr payload ->
  json_getitem payload "reset_password" = inr user_id ->
  register hash data w = mapper_failure_raised w
  /\ users.login check access refresh data w = mapper_failure_raised w
  /\ get_current_user identity w = mapper_failure_raised w
  /\ reset_password hash key jwt_decode token body w = mapper_failure_raised w
  /\ users.get_all_users identity w = mapper_failure_raised w
  /\ users.delete_user identity target w = mapper_failure_raised w.
Proof.
  intros H Hboth [kv ->] Hdec Hkey. unfold mapper_failure_raised.
  pose proof (Cls_query_as_shipped w H) as Hq.
  pose proof (User_query_get_as_shipped identity w H) as Hu.
  assert (Hguards :
            truthy (JDict kv) = true
            /\ truthy (match assoc "email" kv with Some v => v | None => JNull end) = true
            /\ truthy (match assoc "password" kv with Some v => v | None => JNull end) = true).
  { unfold lacks_email_or_password in Hboth.
    apply orb_false_iff in Hboth. destruct Hboth as [Hd Hfields].
    apply orb_false_iff in Hfields. destruct Hfields as [He Hp].
    apply negb_false_iff in Hd, He, Hp. auto. }
  destruct Hguards as [Hd [He Hp]].
  split; [|split; [|split; [|split; [|split]]]].
  - unfold register, json_get. rewrite Hd. cbn [negb].
    rewrite bind_lift_inr, He. cbn [negb]. rewrite bind_lift_inr, Hp. cbn [negb].
    now apply bind_raises.
  - unfold users.login, json_get. rewrite Hd. cbn [negb].
    rewrite bind_lift_inr, He. cbn [negb]. rewrite bind_lift_inr, Hp. cbn [negb].
    now apply bind_raises.
  - unfold get_current_user. now apply bind_raises.
  - unfold reset_password. apply bind_raises.
    unfold verify_reset_token, try_except, bind at 1 2 3.
    rewrite Hdec. cbn [lift ret]. rewrite Hkey. cbn [lift ret].
    now apply bind_raises.
  - unfold users.get_all_users. now apply bind_raises.
  - unfold users.delete_user. now apply bind_raises.
Qed.

Lemma account_views_fail_at_the_query_witness :
  register sample_hash carol_request sample_world = mapper_failure_raised sample_world
  /\ reset_password sample_hash "secret" sample_decode "valid-for-alice"
                    (JDict [("password", JStr "new")]) sample_world
     = mapper_failure_raised sample_world.
Proof.
  destruct (account_views_fail_at_the_query
              sample_hash sample_check sample_access sample_refresh "secret" sample_decode
              "valid-for-alice"
              (JDict [("reset_password", JInt 1); ("exp", JInt 1714646400)]) (JInt 1)
              1 2 carol_request (JDict [("password", JStr "new")]) sample_world
              eq_refl eq_refl (ex_intro _ _ eq_refl) eq_refl eq_refl)
    as [Hregister [_ [_ [Hreset _]]]].
  split; [exact Hregister | exact Hreset].
Defined.
